(** * RealYield agent: the property-search plugin

    A shallow embedding of the search core of [src/plugin.ts]
    ([extractSearchCriteria], [fetchAds], [saveSearchPreferences],
    the handler of [searchListingsAction] and [fetchPropertyDetails]),
    followed by the properties established about it.

    Modelling conventions.
    - JavaScript strings are [string]s of ASCII characters; [toLowerCase]
      and the [i] flag of a regular expression fold [A-Z] onto [a-z].
    - Numbers that the code only ever produces as integers ([Math.round],
      [parseInt], SQL parameters) are [Z]; the one fractional computation,
      [parseFloat(..) * 1000000], is done in [Q], exactly.  [NaN] is falsy
      and every reader of a criteria field tests truthiness, so a field
      holding [NaN] is represented as an absent field.
    - Asynchronous calls are sequential: the handler awaits each one. The
      outside world (the listing provider, the SQL adapter) is an explicit
      argument, and every effect is returned as a value. *)

From Stdlib Require Import String Ascii List ZArith QArith Qround Bool Lia.
From Stdlib Require Import DecimalString.
Import ListNotations.
Set Warnings "-register-all".
Open Scope string_scope.
Open Scope Z_scope.

(** ** JavaScript strings *)

Module JsString.

Definition is_upper (c : ascii) : bool :=
  ((65 <=? nat_of_ascii c) && (nat_of_ascii c <=? 90))%nat.

Definition is_digit (c : ascii) : bool :=
  ((48 <=? nat_of_ascii c) && (nat_of_ascii c <=? 57))%nat.

(** [\s] and the characters removed by [trim]: space, tab, line feed,
    vertical tab, form feed, carriage return. *)
Definition is_space (c : ascii) : bool :=
  let n := nat_of_ascii c in
  ((n =? 32) || ((9 <=? n) && (n <=? 13)))%nat.

Definition lower_char (c : ascii) : ascii :=
  if is_upper c then ascii_of_nat (nat_of_ascii c + 32) else c.

(** [s.toLowerCase()] *)
Fixpoint toLowerCase (s : string) : string :=
  match s with
  | EmptyString => EmptyString
  | String c s' => String (lower_char c) (toLowerCase s')
  end.

(** [s.startsWith(p)] *)
Fixpoint startsWith (s p : string) : bool :=
  match p, s with
  | EmptyString, _ => true
  | String a p', String b s' => Ascii.eqb a b && startsWith s' p'
  | String _ _, EmptyString => false
  end.

(** [s.includes(sub)] *)
Fixpoint includes (s sub : string) : bool :=
  startsWith s sub ||
  match s with
  | EmptyString => false
  | String _ s' => includes s' sub
  end.

Fixpoint take (n : nat) (s : string) : string :=
  match n, s with
  | S n', String c s' => String c (take n' s')
  | _, _ => EmptyString
  end.

Fixpoint rev_onto (s acc : string) : string :=
  match s with
  | EmptyString => acc
  | String c s' => rev_onto s' (String c acc)
  end.

Definition rev (s : string) : string := rev_onto s EmptyString.

Fixpoint trimStart (s : string) : string :=
  match s with
  | String c s' => if is_space c then trimStart s' else s
  | EmptyString => EmptyString
  end.

(** [s.trim()] *)
Definition trim (s : string) : string :=
  rev (trimStart (rev (trimStart s))).

(** [s.replace(/,/g, '')] *)
Fixpoint removeCommas (s : string) : string :=
  match s with
  | EmptyString => EmptyString
  | String c s' =>
      if Ascii.eqb c "," then removeCommas s' else String c (removeCommas s')
  end.

(** A falsy string is the empty one. *)
Definition truthy (s : string) : bool :=
  match s with EmptyString => false | _ => true end.

Definition digit_val (c : ascii) : Z := Z.of_nat (nat_of_ascii c) - 48.

(** Splits off the longest prefix of decimal digits, accumulating its
    value; the second component counts the digits read. *)
Fixpoint read_digits (s : string) (acc : Z) (n : nat) : Z * nat * string :=
  match s with
  | String c s' =>
      if is_digit c then read_digits s' (acc * 10 + digit_val c) (S n)
      else (acc, n, s)
  | EmptyString => (acc, n, s)
  end.

(** [parseInt(s, 10)]: leading white space, an optional sign, then the
    longest run of digits; [None] stands for [NaN]. *)
Definition parseInt (s : string) : option Z :=
  let s1 := trimStart s in
  let '(neg, s2) :=
    match s1 with
    | String "-" r => (true, r)
    | String "+" r => (false, r)
    | _ => (false, s1)
    end in
  match read_digits s2 0 0 with
  | (_, O, _) => None
  | (v, _, _) => Some (if neg then - v else v)
  end.

(** [parseFloat(s)] on the literals the price patterns capture (digits
    with an optional fraction); [None] stands for [NaN]. *)
Definition parseFloat (s : string) : option Q :=
  match read_digits s 0 0 with
  | (_, O, _) => None
  | (ip, _, rest) =>
      match rest with
      | String "." fr =>
          let '(fv, n, _) := read_digits fr 0 0 in
          let den := Z.to_pos (10 ^ Z.of_nat n) in
          Some ((ip * Z.pos den + fv) # den)
      | _ => Some (ip # 1)
      end
  end.

End JsString.

(** [Math.round]: to the nearest integer, halves towards +infinity. *)
Definition Math_round (x : Q) : Z := Qfloor (x + (1 # 2)).

(** ** Regular expressions

    A backtracking matcher with the priorities of the JavaScript engine:
    alternatives are tried left to right, quantifiers are greedy, and
    [exec] returns the match at the leftmost position at which one exists.
    All the patterns of the plugin carry the [i] flag, which a literal
    honours by comparing case-folded characters.  One capture group is
    enough for them. *)

Module Regex.
Import JsString.

Inductive regex : Type :=
| Eps : regex
| Lit : ascii -> regex
| Class : (ascii -> bool) -> regex
| Cat : regex -> regex -> regex
| Alt : regex -> regex -> regex
| Star : regex -> regex
| Group : regex -> regex.

Definition Plus (r : regex) : regex := Cat r (Star r).
Definition Opt (r : regex) : regex := Alt r Eps.

Fixpoint Word (s : string) : regex :=
  match s with
  | EmptyString => Eps
  | String c EmptyString => Lit c
  | String c s' => Cat (Lit c) (Word s')
  end.

Fixpoint OneOf (rs : list regex) : regex :=
  match rs with
  | [] => Eps
  | [r] => r
  | r :: rs' => Alt r (OneOf rs')
  end.

Definition digit : regex := Class is_digit.
Definition space : regex := Class is_space.

(** The first alternative that succeeds; the second one is only tried
    when the first fails. *)
Notation "a <|> b" := (match a with Some x => Some x | None => b end)
  (at level 60, right associativity, only parsing).

Section Matcher.
Context {X : Type}.

(** What remains to be matched after a sub-pattern: it receives the rest
    of the input and the capture. *)
Definition Cont : Type := string -> option string -> option X.

(** [body*] followed by [k], greedy: one more iteration of [body] is
    tried before [k]. An iteration that consumes nothing is rejected, as
    the engine does, so [n], the length of the input at the first
    iteration, bounds their number. *)
Fixpoint star_loop (body : string -> option string -> Cont -> option X)
         (k : Cont) (n : nat) (s : string) (g : option string) : option X :=
  match n with
  | O => k s g
  | S n' =>
      body s g (fun s' g' =>
        if (String.length s' <? String.length s)%nat
        then star_loop body k n' s' g' else None)
      <|> k s g
  end.

(** [run r s g k]: match [r] at the head of [s], with [g] the text
    captured so far, then hand the rest of the input to [k]. *)
Fixpoint run (r : regex) (s : string) (g : option string) (k : Cont)
         {struct r} : option X :=
  match r with
  | Eps => k s g
  | Lit c =>
      match s with
      | String x s' =>
          if Ascii.eqb (lower_char c) (lower_char x) then k s' g else None
      | EmptyString => None
      end
  | Class p =>
      match s with
      | String x s' => if p x then k s' g else None
      | EmptyString => None
      end
  | Cat r1 r2 => run r1 s g (fun s' g' => run r2 s' g' k)
  | Alt r1 r2 => run r1 s g k <|> run r2 s g k
  | Star r1 => star_loop (run r1) k (String.length s) s g
  | Group r1 =>
      run r1 s g (fun s' _ =>
        k s' (Some (take (String.length s - String.length s') s)))
  end.
End Matcher.

(** A matcher that only looks at its continuation on inputs no longer
    than its own. *)
Definition LocalMatcher {X} (body : string -> option string -> @Cont X -> option X) : Prop :=
  forall s g k1 k2,
    (forall s' g', (String.length s' <= String.length s)%nat -> k1 s' g' = k2 s' g') ->
    body s g k1 = body s g k2.

(** The array returned by [String.prototype.match]: index 0 and index 1. *)
Record MatchArray : Type := { m0 : string; m1 : string }.

Definition match_here (r : regex) (s : string) : option MatchArray :=
  run r s None (fun rest g =>
    Some {| m0 := take (String.length s - String.length rest) s;
            m1 := match g with Some c => c | None => EmptyString end |}).

(** [s.match(r)] for a pattern without the [g] flag. *)
Fixpoint exec (r : regex) (s : string) : option MatchArray :=
  match_here r s <|>
    match s with
    | EmptyString => None
    | String _ s' => exec r s'
    end.

(** [r.test(s)] *)
Definition test (r : regex) (s : string) : bool :=
  match exec r s with Some _ => true | None => false end.

End Regex.

(** ** Search criteria *)

(** [bedrooms?: string | number] *)
Inductive BedroomsValue : Type :=
| BedStr : string -> BedroomsValue
| BedNum : Z -> BedroomsValue.

(** The criteria object; [None] is an absent property. *)
Record SearchCriteria : Type := {
  area : option string;
  propertyType : option string;
  bedrooms : option BedroomsValue;
  maxPrice : option Z;
  minPrice : option Z
}.

(** [{}] *)
Definition emptyCriteria : SearchCriteria :=
  {| area := None; propertyType := None; bedrooms := None;
     maxPrice := None; minPrice := None |}.

(** ** extractSearchCriteria *)

Module Extract.
Import JsString Regex.

Definition areaPatterns : list string :=
  [ "Downtown"; "Dubai Marina"; "JBR"; "Palm Jumeirah"; "Business Bay";
    "JVC"; "JVT"; "Jumeirah Village"; "DIFC"; "International City";
    "Sports City"; "Motor City"; "Arabian Ranches"; "Mirdif"; "Barsha";
    "Al Barsha"; "Dubai Hills"; "MBR City"; "Dubai South"; "Dubailand";
    "Dubai Creek"; "Zabeel"; "Deira"; "Bur Dubai"; "Jumeirah"; "Umm Suqeim";
    "Discovery Gardens"; "Gardens"; "Jebel Ali"; "Dubai Production City"; "IMPZ";
    "Dubai Silicon Oasis"; "DSO"; "Al Furjan"; "The Greens" ].

(** [for (const area of areaPatterns) if (...) { criteria.area = area; break; }] *)
Fixpoint findArea (patterns : list string) (text : string) : option string :=
  match patterns with
  | [] => None
  | a :: rest =>
      if includes (toLowerCase text) (toLowerCase a) then Some a
      else findArea rest text
  end.

Definition findPropertyType (text : string) : option string :=
  let t := toLowerCase text in
  if includes t "apartment" || includes t "flat" then Some "apartment"
  else if includes t "villa" || includes t "house" then Some "villa"
  else if includes t "townhouse" then Some "townhouse"
  else if includes t "penthouse" then Some "penthouse"
  else None.

(** [/(\d+)\s*(?:bed|beds?|bedroom|bedrooms?|br|bd|bdr|bhk)/i] *)
Definition bedroomPattern : regex :=
  Cat (Group (Plus digit))
    (Cat (Star space)
       (OneOf [ Word "bed"; Cat (Word "bed") (Opt (Lit "s"));
                Word "bedroom"; Cat (Word "bedroom") (Opt (Lit "s"));
                Word "br"; Word "bd"; Word "bdr"; Word "bhk" ])).

Definition findBedrooms (text : string) : option BedroomsValue :=
  match exec bedroomPattern text with
  | Some bedroomMatch => Some (BedStr (m1 bedroomMatch))
  | None =>
      if includes (toLowerCase text) "studio" then Some (BedStr "studio")
      else None
  end.

(** [(?:AED)?\s*(\d+(?:,\d+)*(?:\.\d+)?)\s*(?:AED|dhs|dirhams|k|million|m)?],
    the part the two price patterns share after [lead\s*]. *)
Definition amountPattern : regex :=
  Cat (Opt (Word "AED"))
    (Cat (Star space)
       (Cat (Group (Cat (Plus digit)
                      (Cat (Star (Cat (Lit ",") (Plus digit)))
                           (Opt (Cat (Lit ".") (Plus digit))))))
          (Cat (Star space)
             (Opt (OneOf [ Word "AED"; Word "dhs"; Word "dirhams";
                           Word "k"; Word "million"; Word "m" ]))))).

(** [/(?:under|below|less than|max|maximum|up to)\s*.../i] *)
Definition maxPricePattern : regex :=
  Cat (OneOf [ Word "under"; Word "below"; Word "less than";
               Word "max"; Word "maximum"; Word "up to" ])
    (Cat (Star space) amountPattern).

(** [/(?:above|over|more than|min|minimum|at least)\s*.../i] *)
Definition minPricePattern : regex :=
  Cat (OneOf [ Word "above"; Word "over"; Word "more than";
               Word "min"; Word "minimum"; Word "at least" ])
    (Cat (Star space) amountPattern).

(** The factor chosen by
    [if (m[0].toLowerCase().includes('million') || m[0].toLowerCase().includes('m'))
     ... else if (m[0].toLowerCase().includes('k'))]. *)
Definition scaleFactor (matched : string) : Z :=
  let whole := toLowerCase matched in
  if includes whole "million" || includes whole "m" then 1000000
  else if includes whole "k" then 1000
  else 1.

(** The body of [if (maxPriceMatch) { ... }], shared by both bounds.
    The literal and its product with the factor are exact rationals
    here. The code computes both as IEEE doubles, which give the same
    integer unless the scaled value lies within a rounding error of a
    half (4.0775 k) or is beyond 2^53. *)
Definition priceOf (m : MatchArray) : option Z :=
  let price := removeCommas (m1 m) in
  match parseFloat price with
  | Some value => Some (Math_round (value * inject_Z (scaleFactor (m0 m))))
  | None => None
  end.

Definition findPrice (pattern : regex) (text : string) : option Z :=
  match exec pattern text with
  | Some m => priceOf m
  | None => None
  end.

Definition extractSearchCriteria (text : string) : SearchCriteria :=
  {| area := findArea areaPatterns text;
     propertyType := findPropertyType text;
     bedrooms := findBedrooms text;
     maxPrice := findPrice maxPricePattern text;
     minPrice := findPrice minPricePattern text |}.

End Extract.


(** ** JavaScript values and objects *)

Module Js.

(** What [JSON.parse] returns, plus the two values a property read can
    add: [undefined] and a built-in method. *)
Inductive JsValue : Type :=
| VUndefined : JsValue
| VNull : JsValue
| VBool : bool -> JsValue
| VNum : Z -> JsValue
| VStr : string -> JsValue
| VArr : list JsValue -> JsValue
| VObj : list (string * JsValue) -> JsValue
| VMethod : string -> JsValue.

(** An object: its own properties in insertion order, each key once. *)
Definition Obj : Type := list (string * JsValue).

Fixpoint obj_get (o : Obj) (k : string) : option JsValue :=
  match o with
  | [] => None
  | (k', v) :: o' => if String.eqb k' k then Some v else obj_get o' k
  end.

(** [o[k] = v] *)
Fixpoint obj_set (o : Obj) (k : string) (v : JsValue) : Obj :=
  match o with
  | [] => [(k, v)]
  | (k', v') :: o' =>
      if String.eqb k' k then (k', v) :: o' else (k', v') :: obj_set o' k v
  end.

(** [Object.keys(o)] *)
Definition obj_keys (o : Obj) : list string := map fst o.

(** Truthiness: [undefined], [null], [false], [0] and [''] are falsy. *)
Definition truthy (v : JsValue) : bool :=
  match v with
  | VUndefined | VNull => false
  | VBool b => b
  | VNum n => negb (n =? 0)
  | VStr s => JsString.truthy s
  | VArr _ | VObj _ | VMethod _ => true
  end.

(** [a || b] *)
Definition or_else (a b : JsValue) : JsValue := if truthy a then a else b.

(** [v.k] for the property names the plugin reads ([title], [price],
    [link], [listings], [data]); [None] is the [TypeError] raised on
    [undefined] and [null]. A string inherits [String.prototype.link];
    no other prototype has any of these names. *)
Definition prop (v : JsValue) (k : string) : option JsValue :=
  match v with
  | VUndefined | VNull => None
  | VObj o => Some (match obj_get o k with Some x => x | None => VUndefined end)
  | VStr _ => Some (if String.eqb k "link" then VMethod "link" else VUndefined)
  | VBool _ | VNum _ | VArr _ | VMethod _ => Some VUndefined
  end.

(** [a === b] against a string literal. *)
Definition is_str (v : JsValue) (s : string) : bool :=
  match v with VStr x => String.eqb x s | _ => false end.

End Js.

(** A call either returns or throws. *)
Inductive Outcome (A : Type) : Type :=
| Returned : A -> Outcome A
| Thrown : Outcome A.
Arguments Returned {A} _.
Arguments Thrown {A}.

(** ** fetchAds *)

Module Ads.
Import Js.

(** What [await fetch(url, init)] followed by [res.json()] can observe:
    the request fails, or a response arrives with a status and a body
    that parses as JSON ([Some]) or does not ([None]). *)
Inductive HttpResult : Type :=
| NetworkError : HttpResult
| Response : Z -> option JsValue -> HttpResult.

(** [res.ok] *)
Definition ok (status : Z) : bool := (200 <=? status) && (status <=? 299).

(** The listing provider: request body to result. *)
Definition Provider : Type := Obj -> HttpResult.

Record Ad : Type := { title : JsValue; price : JsValue; link : JsValue }.

Definition placeholderLink : string := "#".

(** The [payload] object after the three guarded assignments. *)
Definition buildPayload (searchCriteria : SearchCriteria) : Obj :=
  let payload : Obj := [] in
  let payload :=
    match area searchCriteria with
    | Some a => if JsString.truthy a then obj_set payload "area" (VStr a) else payload
    | None => payload
    end in
  let payload :=
    match bedrooms searchCriteria with
    | Some (BedStr b) =>
        if JsString.truthy b then
          if String.eqb (JsString.toLowerCase b) "studio"
          then obj_set payload "bedrooms" (VNum 0)
          else match JsString.parseInt b with
               | Some numBedrooms => obj_set payload "bedrooms" (VNum numBedrooms)
               | None => payload
               end
        else payload
    | Some (BedNum n) =>
        if negb (n =? 0) then obj_set payload "bedrooms" (VNum n) else payload
    | None => payload
    end in
  match maxPrice searchCriteria with
  | Some p => if negb (p =? 0) then obj_set payload "maxPrice" (VNum p) else payload
  | None => payload
  end.

(** The three response shapes, tried in order; [Returned None] is the
    unrecognised shape and [Thrown] a [TypeError] on the way. *)
Definition findListings (responseJson : JsValue) : Outcome (option (list JsValue)) :=
  match responseJson with
  | VArr items => Returned (Some items)
  | _ =>
      match prop responseJson "listings" with
      | None => Thrown
      | Some (VArr items) => Returned (Some items)
      | Some _ =>
          match prop responseJson "data" with
          | None => Thrown
          | Some data =>
              if truthy data then
                match prop data "listings" with
                | None => Thrown
                | Some (VArr items) => Returned (Some items)
                | Some _ => Returned None
                end
              else Returned None
          end
      end
  end.

(** The callback of [rawListings.map]. *)
Definition normalize (item : JsValue) : Outcome Ad :=
  match prop item "title", prop item "price", prop item "link" with
  | Some t, Some p, Some l =>
      Returned {| title := or_else t (VStr "No Title");
                  price := or_else p (VStr "Price not specified");
                  link := or_else l (VStr placeholderLink) |}
  | _, _, _ => Thrown
  end.

Fixpoint mapNormalize (items : list JsValue) : Outcome (list Ad) :=
  match items with
  | [] => Returned []
  | item :: rest =>
      match normalize item with
      | Thrown => Thrown
      | Returned ad =>
          match mapNormalize rest with
          | Thrown => Thrown
          | Returned ads => Returned (ad :: ads)
          end
      end
  end.

(** The callback of [.filter]: [ad.link && ad.link !== '#']. *)
Definition validLink (ad : Ad) : bool :=
  truthy (link ad) && negb (is_str (link ad) placeholderLink).

(** [fetchAds]: the request bodies sent, and the outcome. *)
Definition fetchAds (provider : Provider) (searchCriteria : SearchCriteria)
  : list Obj * Outcome (list Ad) :=
  let payload := buildPayload searchCriteria in
  if (List.length (obj_keys payload) =? 0)%nat then ([], Returned [])
  else
    match provider payload with
    | NetworkError => ([payload], Thrown)
    | Response status body =>
        if negb (ok status) then ([payload], Thrown)
        else
          match body with
          | None => ([payload], Thrown)
          | Some responseJson =>
              match findListings responseJson with
              | Thrown => ([payload], Thrown)
              | Returned None => ([payload], Returned [])
              | Returned (Some rawListings) =>
                  match mapNormalize rawListings with
                  | Thrown => ([payload], Thrown)
                  | Returned ads =>
                      ([payload], Returned (firstn 5 (filter validLink ads)))
                  end
              end
          end
    end.

End Ads.

(** ** The preference store *)

Module Store.

(** A row of [preferences]; [None] is SQL [NULL]. *)
Record PreferenceRow : Type := {
  user_id : string;
  row_area : option string;
  property_type : option string;
  row_bedrooms : option string;
  max_price : option Z;
  min_price : option Z;
  last_updated : Z
}.

(** A row of [search_logs]; [criteria_json] keeps the criteria that
    [JSON.stringify] serialises. *)
Record SearchLogRow : Type := {
  search_id : string;
  log_user_id : string;
  timestamp : Z;
  criteria_json : SearchCriteria;
  listings_returned : Z
}.

Record Db : Type := {
  preferences : list PreferenceRow;
  search_logs : list SearchLogRow
}.

(** [runtime.sql]: missing, an adapter whose queries throw, or a
    working one over a database. *)
Inductive SqlAdapter : Type :=
| SqlAbsent : SqlAdapter
| SqlBroken : SqlAdapter
| SqlLive : Db -> SqlAdapter.

(** [s || null] *)
Definition strOrNull (s : option string) : option string :=
  match s with
  | Some x => if JsString.truthy x then Some x else None
  | None => None
  end.

(** [n || null] *)
Definition numOrNull (n : option Z) : option Z :=
  match n with
  | Some x => if x =? 0 then None else Some x
  | None => None
  end.

(** [Number.prototype.toString] on an integer. *)
Definition numToString (n : Z) : string := NilZero.string_of_int (Z.to_int n).

(** [preferences.bedrooms?.toString() || null] *)
Definition bedroomsOrNull (b : option BedroomsValue) : option string :=
  match b with
  | Some (BedStr s) => strOrNull (Some s)
  | Some (BedNum n) => strOrNull (Some (numToString n))
  | None => None
  end.

(** SQL [COALESCE(?, column)] *)
Definition coalesce {A} (param stored : option A) : option A :=
  match param with Some _ => param | None => stored end.

(** [SELECT id FROM preferences WHERE user_id = ?] *)
Definition selectByUser (db : Db) (userId : string) : list PreferenceRow :=
  filter (fun r => String.eqb (user_id r) userId) (preferences db).

(** The [SET] clause of the [UPDATE], applied to one row. *)
Definition updateRow (now : Z) (c : SearchCriteria) (r : PreferenceRow)
  : PreferenceRow :=
  {| user_id := user_id r;
     row_area := coalesce (strOrNull (area c)) (row_area r);
     property_type := coalesce (strOrNull (propertyType c)) (property_type r);
     row_bedrooms := coalesce (bedroomsOrNull (bedrooms c)) (row_bedrooms r);
     max_price := coalesce (numOrNull (maxPrice c)) (max_price r);
     min_price := coalesce (numOrNull (minPrice c)) (min_price r);
     last_updated := now |}.

(** [UPDATE preferences SET ... WHERE user_id = ?] *)
Definition updatePreferences (now : Z) (userId : string) (c : SearchCriteria)
           (rows : list PreferenceRow) : list PreferenceRow :=
  map (fun r => if String.eqb (user_id r) userId then updateRow now c r else r)
      rows.

(** The row of [INSERT INTO preferences (...) VALUES (...)]. *)
Definition newRow (now : Z) (userId : string) (c : SearchCriteria)
  : PreferenceRow :=
  {| user_id := userId;
     row_area := strOrNull (area c);
     property_type := strOrNull (propertyType c);
     row_bedrooms := bedroomsOrNull (bedrooms c);
     max_price := numOrNull (maxPrice c);
     min_price := numOrNull (minPrice c);
     last_updated := now |}.

(** The row of [INSERT INTO search_logs (...) VALUES (?, ?, CURRENT_TIMESTAMP, ?, 0)]. *)
Definition newLog (now : Z) (searchId userId : string) (c : SearchCriteria)
  : SearchLogRow :=
  {| search_id := searchId; log_user_id := userId; timestamp := now;
     criteria_json := c; listings_returned := 0 |}.

(** The two constraints the schema of [plugin.init] puts on
    [search_logs]: [search_id TEXT PRIMARY KEY] and
    [CONSTRAINT idx_user UNIQUE (user_id, timestamp)]. A row clashes with
    the table when a stored row has its search id, or its user and its
    timestamp. *)
Definition logClash (row : SearchLogRow) (logs : list SearchLogRow) : bool :=
  existsb (fun l => String.eqb (search_id l) (search_id row)
                    || (String.eqb (log_user_id l) (log_user_id row)
                        && (timestamp l =? timestamp row)))
          logs.

(** [INSERT INTO search_logs ...]: the row is appended, unless it
    clashes; then the query throws and the table is as before. *)
Definition insertLog (row : SearchLogRow) (logs : list SearchLogRow)
  : list SearchLogRow :=
  if logClash row logs then logs else (logs ++ [row])%list.

(** [saveSearchPreferences(runtime, userId, preferences)]. [now] is the
    database's [CURRENT_TIMESTAMP] and [searchId] the value of
    [createUniqueUuid]. The criteria object is never [null] at a call
    site, so [!preferences] is false. A query that throws is caught and
    leaves the database as the queries before it left it: the statements
    run one by one, outside a transaction, so a log row refused by a
    constraint of [search_logs] does not undo the write to [preferences].
    The [INSERT] into [preferences] runs only when the [SELECT] found no
    row of the user, so [UNIQUE(user_id)] cannot refuse it. *)
Definition saveSearchPreferences (sql : SqlAdapter) (now : Z) (searchId : string)
           (userId : string) (c : SearchCriteria) : SqlAdapter :=
  if negb (JsString.truthy userId) then sql
  else
    match sql with
    | SqlAbsent => SqlAbsent
    | SqlBroken => SqlBroken
    | SqlLive db =>
        let existingPrefs := selectByUser db userId in
        let prefs :=
          if (0 <? List.length existingPrefs)%nat
          then updatePreferences now userId c (preferences db)
          else (preferences db ++ [newRow now userId c])%list in
        SqlLive {| preferences := prefs;
                   search_logs :=
                     insertLog (newLog now searchId userId c) (search_logs db) |}
    end.

(** [ORDER BY key DESC LIMIT 1] over the rows already selected: the
    first row carrying the greatest key. *)
Fixpoint latest {A} (key : A -> Z) (rows : list A) : option A :=
  match rows with
  | [] => None
  | r :: rest =>
      match latest key rest with
      | Some r' => if key r <? key r' then Some r' else Some r
      | None => Some r
      end
  end.

(** [SELECT ... FROM preferences WHERE user_id = ? ORDER BY last_updated DESC LIMIT 1] *)
Definition selectLatestPreference (db : Db) (userId : string)
  : option PreferenceRow :=
  latest last_updated (selectByUser db userId).

Fixpoint setCountAt (target : SearchLogRow -> bool) (n : Z)
         (rows : list SearchLogRow) : list SearchLogRow :=
  match rows with
  | [] => []
  | r :: rest =>
      if target r
      then {| search_id := search_id r; log_user_id := log_user_id r;
              timestamp := timestamp r; criteria_json := criteria_json r;
              listings_returned := n |} :: rest
      else r :: setCountAt target n rest
  end.

(** [UPDATE search_logs SET listings_returned = ? WHERE user_id = ?
     ORDER BY timestamp DESC LIMIT 1] *)
Definition updateLogCount (db : Db) (n : Z) (userId : string) : Db :=
  let mine := filter (fun r => String.eqb (log_user_id r) userId) (search_logs db) in
  match latest timestamp mine with
  | None => db
  | Some top =>
      {| preferences := preferences db;
         search_logs :=
           setCountAt (fun r => String.eqb (log_user_id r) userId
                                && (timestamp r =? timestamp top)) n
                      (search_logs db) |}
  end.

End Store.

(** ** The handler of searchListingsAction *)

Module Dialogue.
Import JsString Regex Js Ads Store Extract.

(** [state.values]: the two flags and the last criteria. An unset flag
    is [undefined], which both tests of the handler read as [false]. *)
Record ConversationState : Type := {
  awaitingPropertyCriteria : bool;
  showingListingResults : bool;
  lastSearchCriteria : option SearchCriteria
}.

Definition initialState : ConversationState :=
  {| awaitingPropertyCriteria := false; showingListingResults := false;
     lastSearchCriteria := None |}.

(** [message.content.text || ''], [message.id] (the empty string when
    missing) and [message.content.source]. *)
Record Message : Type := {
  msg_text : string;
  msg_id : string;
  msg_source : string
}.

(** The reply texts, one constructor per template of the handler. The
    templates that list results choose their no-match wording when the
    list is empty. *)
Inductive Reply : Type :=
| MoreListings : list Ad -> Reply
| MoreListingsError : Reply
| RefinePrompt : Reply
| PreferencesSaved : SearchCriteria -> Reply
| SearchResults : list Ad -> Reply
| SearchError : Reply
| SavedSearchResults : list Ad -> Reply
| NoSavedPreferences : Reply
| SavedPreferencesError : Reply
| AskForCriteria : Reply.

Record Content : Type := {
  body : Reply;
  actions : list string;
  source : string
}.

(** What a turn is given from outside: the provider behind [fetchAds],
    the database clock and the identifier [createUniqueUuid] returns. *)
Record Env : Type := {
  provider : Provider;
  now : Z;
  searchId : string
}.

Inductive Event : Type :=
| Fetched : ConversationState -> SearchCriteria -> list Obj -> bool -> Event
| Saved : string -> SearchCriteria -> Event
| Replied : Content -> Event.

(** Everything a turn can change, with the record of what it did:
    [Fetched st c reqs threw] keeps the conversation state at the time
    of the call. *)
Record World : Type := {
  conv : ConversationState;
  sql : SqlAdapter;
  events : list Event
}.

(** *** A state monad over [World] *)

Definition M (A : Type) : Type := World -> A * World.

Definition ret {A} (a : A) : M A := fun w => (a, w).

Definition bind {A B} (m : M A) (k : A -> M B) : M B :=
  fun w => let (a, w') := m w in k a w'.

Notation "x <- m ;; k" := (bind m (fun x => k))
  (at level 61, m at next level, right associativity).
Notation "m ;; k" := (bind m (fun _ => k))
  (at level 61, right associativity).

Definition readState : M ConversationState := fun w => (conv w, w).

Definition writeState (f : ConversationState -> ConversationState) : M unit :=
  fun w => (tt, {| conv := f (conv w); sql := sql w; events := events w |}).

Definition record (e : Event) : M unit :=
  fun w => (tt, {| conv := conv w; sql := sql w;
                   events := (events w ++ [e])%list |}).

(** [state.values.awaitingPropertyCriteria = b] *)
Definition setAwaiting (b : bool) : M unit :=
  writeState (fun st =>
    {| awaitingPropertyCriteria := b;
       showingListingResults := showingListingResults st;
       lastSearchCriteria := lastSearchCriteria st |}).

(** [state.values.showingListingResults = b] *)
Definition setShowing (b : bool) : M unit :=
  writeState (fun st =>
    {| awaitingPropertyCriteria := awaitingPropertyCriteria st;
       showingListingResults := b;
       lastSearchCriteria := lastSearchCriteria st |}).

(** [state.values.lastSearchCriteria = c] *)
Definition setLastCriteria (c : SearchCriteria) : M unit :=
  writeState (fun st =>
    {| awaitingPropertyCriteria := awaitingPropertyCriteria st;
       showingListingResults := showingListingResults st;
       lastSearchCriteria := Some c |}).

Definition isThrown {A} (o : Outcome A) : bool :=
  match o with Thrown => true | Returned _ => false end.

(** [await fetchAds(c)] *)
Definition callFetchAds (env : Env) (c : SearchCriteria) : M (Outcome (list Ad)) :=
  fun w =>
    let (requests, out) := fetchAds (provider env) c in
    (out, {| conv := conv w; sql := sql w;
             events := (events w ++ [Fetched (conv w) c requests (isThrown out)])%list |}).

(** [await saveSearchPreferences(runtime, userId, c)] *)
Definition callSave (env : Env) (userId : string) (c : SearchCriteria) : M unit :=
  fun w =>
    (tt, {| conv := conv w;
            sql := saveSearchPreferences (sql w) (now env) (searchId env) userId c;
            events := (events w ++ [Saved userId c])%list |}).

(** The guarded [UPDATE search_logs ...]: skipped without an adapter,
    and a query that throws is caught on the spot. *)
Definition callUpdateLogCount (n : Z) (userId : string) : M unit :=
  fun w =>
    (tt, {| conv := conv w;
            sql := match sql w with
                   | SqlLive db => SqlLive (updateLogCount db n userId)
                   | other => other
                   end;
            events := events w |}).

(** [await runtime.sql?.query?.(SELECT ... LIMIT 1, [userId])] *)
Definition querySavedPreferences (userId : string)
  : M (Outcome (option PreferenceRow)) :=
  fun w =>
    (match sql w with
     | SqlAbsent => Returned None
     | SqlBroken => Thrown
     | SqlLive db => Returned (selectLatestPreference db userId)
     end, w).

(** [await callback(response); return response;] *)
Definition reply (msg : Message) (r : Reply) : M Content :=
  let response :=
    {| body := r; actions := ["SEARCH_LISTINGS"]; source := msg_source msg |} in
  record (Replied response) ;; ret response.

(** [a.title.replace(...)] inside [ads.map] raises a [TypeError] unless
    every title is a string. *)
Definition linesRender (ads : list Ad) : bool :=
  forallb (fun a => match title a with VStr _ => true | _ => false end) ads.

(** *** The patterns *)

(** [/(?:show|send|get|give)\s+(?:more|next)/i] *)
Definition showMorePattern : regex :=
  Cat (OneOf [Word "show"; Word "send"; Word "get"; Word "give"])
    (Cat (Plus space) (OneOf [Word "more"; Word "next"])).

(** [/(?:narrow|filter|tighten|refine|specific|less)/i] *)
Definition narrowPattern : regex :=
  OneOf [ Word "narrow"; Word "filter"; Word "tighten"; Word "refine";
          Word "specific"; Word "less" ].

(** [/(?:save|store|remember|keep)\s+(?:this|these|search|criteria)/i] *)
Definition savePattern : regex :=
  Cat (OneOf [Word "save"; Word "store"; Word "remember"; Word "keep"])
    (Cat (Plus space)
       (OneOf [Word "this"; Word "these"; Word "search"; Word "criteria"])).

(** [/(?:show|get|what|my)\s+(?:previous|saved|last|recent)?\s*(?:search|criteria|preferences)/i] *)
Definition savedSearchPattern : regex :=
  Cat (OneOf [Word "show"; Word "get"; Word "what"; Word "my"])
    (Cat (Plus space)
       (Cat (Opt (OneOf [Word "previous"; Word "saved"; Word "last"; Word "recent"]))
          (Cat (Star space)
             (OneOf [Word "search"; Word "criteria"; Word "preferences"])))).

(** [/(?:new|latest|recent|updated)\s+(?:listings|properties|options)/i] *)
Definition newListingsPattern : regex :=
  Cat (OneOf [Word "new"; Word "latest"; Word "recent"; Word "updated"])
    (Cat (Plus space) (OneOf [Word "listings"; Word "properties"; Word "options"])).

(** *** The branches *)

Definition optTruthyStr (s : option string) : bool :=
  match s with Some x => JsString.truthy x | None => false end.

Definition optTruthyNum (n : option Z) : bool :=
  match n with Some x => negb (x =? 0) | None => false end.

Definition optTruthyBedrooms (b : option BedroomsValue) : bool :=
  match b with
  | Some (BedStr s) => JsString.truthy s
  | Some (BedNum n) => negb (n =? 0)
  | None => false
  end.

(** [state.values.lastSearchCriteria || {}] *)
Definition lastOrEmpty (st : ConversationState) : SearchCriteria :=
  match lastSearchCriteria st with Some c => c | None => emptyCriteria end.

(** Lines 530-564: "show more". *)
Definition showMoreBranch (env : Env) (msg : Message) : M Content :=
  st <- readState ;;
  let criteriaForNextBatch := lastOrEmpty st in
  out <- callFetchAds env criteriaForNextBatch ;;
  match out with
  | Returned additionalAds =>
      if linesRender additionalAds
      then reply msg (MoreListings additionalAds)
      else reply msg MoreListingsError
  | Thrown => reply msg MoreListingsError
  end.

(** Lines 565-576: "narrow". *)
Definition narrowBranch (msg : Message) : M Content :=
  setShowing false ;;
  setAwaiting true ;;
  reply msg RefinePrompt.

(** Lines 578-599: "save". [saveSearchPreferences] catches whatever it
    raises, so the [catch] of this branch is never entered. *)
Definition saveBranch (env : Env) (msg : Message) : M Content :=
  st <- readState ;;
  let criteriaToSave := lastOrEmpty st in
  callSave env (msg_id msg) criteriaToSave ;;
  reply msg (PreferencesSaved criteriaToSave).

(** Lines 615-664: the user was asked for criteria. *)
Definition awaitingBranch (env : Env) (msg : Message) (text : string) : M Content :=
  setAwaiting false ;;
  let currentCriteria := extractSearchCriteria text in
  setLastCriteria currentCriteria ;;
  out <- callFetchAds env currentCriteria ;;
  match out with
  | Returned ads =>
      callSave env (msg_id msg) currentCriteria ;;
      callUpdateLogCount (Z.of_nat (List.length ads)) (msg_id msg) ;;
      if linesRender ads
      then setShowing true ;; reply msg (SearchResults ads)
      else reply msg SearchError
  | Thrown => reply msg SearchError
  end.

(** Lines 679-685: the criteria read back from a stored row. *)
Definition criteriaFromDb (pref : PreferenceRow) : SearchCriteria :=
  {| area := row_area pref;
     propertyType := property_type pref;
     bedrooms := match row_bedrooms pref with
                 | Some b => Some (BedStr b)
                 | None => None
                 end;
     maxPrice := if optTruthyNum (max_price pref) then max_price pref else None;
     minPrice := if optTruthyNum (min_price pref) then min_price pref else None |}.

(** Lines 669-732: "my saved search" and "new listings". *)
Definition savedBranch (env : Env) (msg : Message) : M Content :=
  q <- querySavedPreferences (msg_id msg) ;;
  match q with
  | Returned (Some pref) =>
      let fromDb := criteriaFromDb pref in
      setLastCriteria fromDb ;;
      out <- callFetchAds env fromDb ;;
      match out with
      | Returned ads =>
          if linesRender ads
          then setShowing true ;; reply msg (SavedSearchResults ads)
          else setAwaiting true ;; reply msg SavedPreferencesError
      | Thrown => setAwaiting true ;; reply msg SavedPreferencesError
      end
  | Returned None => setAwaiting true ;; reply msg NoSavedPreferences
  | Thrown => setAwaiting true ;; reply msg SavedPreferencesError
  end.

(** Lines 779-795: ask for criteria. *)
Definition defaultBranch (msg : Message) : M Content :=
  setAwaiting true ;;
  reply msg AskForCriteria.

(** Lines 735-738, "ensure enough detail". *)
Definition enoughDetail (c : SearchCriteria) : bool :=
  (optTruthyStr (area c) || optTruthyStr (propertyType c)
   || optTruthyBedrooms (bedrooms c))
  && (optTruthyNum (maxPrice c) || optTruthyNum (minPrice c)
      || optTruthyStr (area c)).

(** Lines 734-777, falling through to the default when the criteria are
    too thin or the [try] block raises. *)
Definition fallbackBranch (env : Env) (msg : Message) (text : string) : M Content :=
  let initialCriteria := extractSearchCriteria text in
  if enoughDetail initialCriteria then
    setLastCriteria initialCriteria ;;
    out <- callFetchAds env initialCriteria ;;
    match out with
    | Returned ads =>
        callSave env (msg_id msg) initialCriteria ;;
        callUpdateLogCount (Z.of_nat (List.length ads)) (msg_id msg) ;;
        if linesRender ads
        then setShowing true ;; reply msg (SearchResults ads)
        else defaultBranch msg
    | Thrown => defaultBranch msg
    end
  else defaultBranch msg.

(** Lines 615-795: what runs when no "showing results" branch returned. *)
Definition afterShowing (env : Env) (msg : Message) (text : string) : M Content :=
  st <- readState ;;
  if awaitingPropertyCriteria st then awaitingBranch env msg text
  else if test savedSearchPattern text || test newListingsPattern text
       then savedBranch env msg
       else fallbackBranch env msg text.

(** [searchListingsAction.handler] *)
Definition handler (env : Env) (msg : Message) : M Content :=
  let text := trim (msg_text msg) in
  st <- readState ;;
  if showingListingResults st then
    if test showMorePattern text then showMoreBranch env msg
    else if test narrowPattern text then narrowBranch msg
    else if test savePattern text then saveBranch env msg
    else afterShowing env msg text
  else afterShowing env msg text.

(** One turn of the conversation: the world after the handler. *)
Definition turn (env : Env) (msg : Message) (w : World) : World :=
  snd (handler env msg w).

(** The worlds a conversation can be in: it starts idle, over any
    adapter, and each inbound message runs the handler once. *)
Inductive Reachable : World -> Prop :=
| reach_start : forall adapter,
    Reachable {| conv := initialState; sql := adapter; events := [] |}
| reach_turn : forall env msg w,
    Reachable w -> Reachable (turn env msg w).

End Dialogue.

(** ** fetchPropertyDetails *)

Module Details.
Import Js.

(** What one pass through the body of the retry loop can observe: the
    request is rejected, or a response arrives whose body [res.json()]
    parses ([Some]) or rejects ([None]). *)
Inductive AttemptResult : Type :=
| TransportFailure : AttemptResult
| Status : Z -> option JsValue -> AttemptResult.

(** The detail endpoint: the result of the attempt with a given number. *)
Definition Server : Type := Z -> AttemptResult.

Inductive Effect : Type :=
| Request : string -> Effect
| Wait : Z -> Effect.

Definition MAX_ATTEMPTS : Z := 3.

(** [Math.min(1000 * Math.pow(2, attempt - 1), 5000)] *)
Definition backoffMs (attempt : Z) : Z :=
  Z.min (1000 * 2 ^ (attempt - 1)) 5000.

(** [if (attempt < MAX_ATTEMPTS) await new Promise(r => setTimeout(r, backoffMs))] *)
Definition waitBeforeRetry (attempt : Z) : list Effect :=
  if attempt <? MAX_ATTEMPTS then [Wait (backoffMs attempt)] else [].

(** The [for] loop from [attempt] on, with [remaining] the number of
    iterations left ([MAX_ATTEMPTS - attempt + 1]). Leaving the loop
    reaches [throw lastError]. *)
Fixpoint attemptsFrom (link : string) (server : Server)
         (remaining : nat) (attempt : Z) : list Effect * Outcome JsValue :=
  match remaining with
  | O => ([], Thrown)
  | S remaining' =>
      let retry :=
        let (effects, out) := attemptsFrom link server remaining' (attempt + 1) in
        ((Request link :: waitBeforeRetry attempt) ++ effects, out)%list in
      match server attempt with
      | TransportFailure => retry
      | Status status body =>
          if status =? 200 then
            match body with
            | Some data => ([Request link], Returned data)
            | None => retry
            end
          else if negb (Ads.ok status) then retry
          else
            match body with
            | Some data => ([Request link], Returned data)
            | None => retry
            end
      end
  end.

(** [fetchPropertyDetails(link)]: the requests and waits performed, and
    the value the promise resolves to, [None] being the [null] of the
    outer [catch]. *)
Definition fetchPropertyDetails (server : Server) (link : string)
  : list Effect * option JsValue :=
  let (effects, out) := attemptsFrom link server (Z.to_nat MAX_ATTEMPTS) 1 in
  (effects, match out with Returned data => Some data | Thrown => None end).

(** An attempt is retried unless it brings a 2xx response with a body
    that parses. *)
Definition attemptFails (r : AttemptResult) : bool :=
  match r with
  | TransportFailure => true
  | Status status body =>
      negb (Ads.ok status) || match body with Some _ => false | None => true end
  end.

Definition isRequest (e : Effect) : bool :=
  match e with Request _ => true | Wait _ => false end.

Definition requestCount (effects : list Effect) : nat :=
  List.length (filter isRequest effects).

End Details.

(** ** The validate function of searchListingsAction *)

Module SearchValidate.
Import JsString Regex Dialogue.

Definition searchKeywords : list string :=
  [ "find property"; "find apartment"; "find villa"; "find home";
    "search for property"; "search for apartment"; "search for villa";
    "show me property"; "show me properties"; "show me listings";
    "show listings"; "property listings"; "property options";
    "looking to buy"; "want to buy"; "buy property"; "buy a house";
    "get listings"; "get property"; "list properties";
    "find links"; "find me links"; "links to listings"; "property links" ].

(** [/\d+\s*(?:bed|beds?|bedroom|bedrooms?|br|bd|bdr|bhk)/i] *)
Definition bedroomPattern : regex :=
  Cat (Plus digit)
    (Cat (Star space)
       (OneOf [ Word "bed"; Cat (Word "bed") (Opt (Lit "s"));
                Word "bedroom"; Cat (Word "bedroom") (Opt (Lit "s"));
                Word "br"; Word "bd"; Word "bdr"; Word "bhk" ])).

(** [[A-Za-z\s]] *)
Definition is_letter_or_space (c : ascii) : bool :=
  is_upper c || ((97 <=? nat_of_ascii c) && (nat_of_ascii c <=? 122))%nat
  || is_space c.

(** [in\s+([A-Za-z\s]+)], the part of the area pattern before its
    closing alternatives. *)
Definition areaLead : regex :=
  Cat (Word "in") (Cat (Plus space) (Group (Plus (Class is_letter_or_space)))).

(** [(?:$|\s+under|\s+below|\s+with)] as what must follow: the end of
    the text, or one of the three words after white space. *)
Definition areaClose : @Cont unit :=
  fun rest g =>
    (match rest with EmptyString => Some tt | String _ _ => None end)
    <|> run (OneOf [ Cat (Plus space) (Word "under");
                     Cat (Plus space) (Word "below");
                     Cat (Plus space) (Word "with") ])
            rest g (fun _ _ => Some tt).

(** [r.test(s)] for a pattern [r] followed by [close]: a match is looked
    for at each position from the left. *)
Fixpoint testThen (r : regex) (close : @Cont unit) (s : string) : bool :=
  match run r s None close with
  | Some _ => true
  | None =>
      match s with
      | EmptyString => false
      | String _ s' => testThen r close s'
      end
  end.

(** [/in\s+([A-Za-z\s]+)(?:$|\s+under|\s+below|\s+with)/i.test(text)] *)
Definition testAreaPattern (text : string) : bool :=
  testThen areaLead areaClose text.

(** [/(?:under|below|less than|max|up to)\s*(?:AED)?\s*\d+/i] *)
Definition pricePattern : regex :=
  Cat (OneOf [ Word "under"; Word "below"; Word "less than";
               Word "max"; Word "up to" ])
    (Cat (Star space) (Cat (Opt (Word "AED")) (Cat (Star space) (Plus digit)))).

(** [searchListingsAction.validate] *)
Definition validate (messageText : string) (st : ConversationState) : bool :=
  let text := toLowerCase messageText in
  if awaitingPropertyCriteria st || showingListingResults st then true
  else if existsb (fun keyword => includes text keyword) searchKeywords then true
  else if test bedroomPattern text && (testAreaPattern text || test pricePattern text)
       then true
  else if (includes text "new" || includes text "latest")
          && (includes text "listing" || includes text "properties") then true
  else if (includes text "my" || includes text "previous" || includes text "last")
          && (includes text "search" || includes text "criteria"
              || includes text "preference") then true
  else false.

End SearchValidate.

(** ** analysePropertyLinkAction, debugPropertyAction and the probe *)

Module Analyse.
Import JsString Regex Js Details.

(** [/https?:\/\/(?:www\.)?propertyfinder\.ae\/[^\s]+/i] *)
Definition propertyLinkRegex : regex :=
  Cat (Word "http")
    (Cat (Opt (Lit "s"))
       (Cat (Word "://")
          (Cat (Opt (Word "www."))
             (Cat (Word "propertyfinder.ae/")
                  (Plus (Class (fun c => negb (is_space c)))))))).

(** [analysePropertyLinkAction.validate] *)
Definition validate (text : string) : bool :=
  if startsWith text "https://" && includes text "propertyfinder.ae" then true
  else test propertyLinkRegex text.

(** What the handlers pass to the callback. The analysis and the debug
    summary are texts built from the details by string interpolation and
    number formatting, which is left to the parameter [render] of the
    handlers: [render isRent details link] is the text, or [Thrown] when
    building it raises a [TypeError]. *)
Inductive Reply : Type :=
| Trouble : Reply
| Analysis : string -> option JsValue -> Reply
| DebugIntro : string -> Reply
| DebugFailed : Reply
| DebugResult : string -> Reply.

(** A run of a handler: the requests and waits, the replies in order,
    and what the handler returns ([None] for [null]) or [Thrown]. *)
Record Run : Type := {
  effects : list Effect;
  replies : list Reply;
  result : Outcome (option Reply)
}.

(** [details.image ? [{ type: 'image', url: details.image }] : undefined] *)
Definition attachmentOf (d : JsValue) : option JsValue :=
  match prop d "image" with
  | Some image => if truthy image then Some image else None
  | None => None
  end.

(** [analysePropertyLinkAction.handler] *)
Definition handler (server : Server)
           (render : bool -> JsValue -> string -> Outcome string)
           (text : string) : Run :=
  match exec propertyLinkRegex text with
  | None => {| effects := []; replies := []; result := Returned None |}
  | Some linkMatch =>
      let link := m0 linkMatch in
      let (requests, details) := fetchPropertyDetails server link in
      let trouble :=
        {| effects := requests; replies := [Trouble]; result := Returned None |} in
      match details with
      | None => trouble
      | Some d =>
          if negb (truthy d) then trouble
          else
            let isRent := includes link "/rent/" in
            match render isRent d link with
            | Thrown => {| effects := requests; replies := []; result := Thrown |}
            | Returned analysis =>
                let response := Analysis analysis (attachmentOf d) in
                {| effects := requests; replies := [response];
                   result := Returned (Some response) |}
            end
      end
  end.

Definition testUrl : string :=
  "https://www.propertyfinder.ae/en/plp/rent/apartment-for-rent-dubai-business-bay-upside-living-14214294.html".

(** [debugPropertyAction.validate] *)
Definition debugValidate (messageText : string) : bool :=
  let text := toLowerCase messageText in
  includes text "debug property" || includes text "test property link".

(** [debugPropertyAction.handler]; [describe details] is the text of the
    result message, or [Thrown] when interpolating the details raises. *)
Definition debugHandler (server : Server)
           (describe : JsValue -> Outcome string) : Run :=
  let (requests, details) := fetchPropertyDetails server testUrl in
  let failed :=
    {| effects := requests; replies := [DebugIntro testUrl; DebugFailed];
       result := Returned None |} in
  match details with
  | None => failed
  | Some d =>
      if negb (truthy d) then failed
      else
        match describe d with
        | Thrown =>
            {| effects := requests; replies := [DebugIntro testUrl];
               result := Thrown |}
        | Returned summary =>
            {| effects := requests;
               replies := [DebugIntro testUrl; DebugResult summary];
               result := Returned None |}
        end
  end.

(** [testPropertyLinkWebhook], given what its one request observes. *)
Definition testPropertyLinkWebhook (probe : AttemptResult) : bool :=
  match probe with
  | TransportFailure => false
  | Status status _ => status <? 500
  end.

End Analyse.

(** * Vocabulary of the properties *)

Section Vocabulary.
Import Js Ads Store Dialogue.

(** The criteria carry nothing [fetchAds] can send: no area, no usable
    bedrooms value (a number other than 0, "studio", or a string
    [parseInt] reads a number from) and no maximum price. *)
Definition NothingToSend (c : SearchCriteria) : Prop :=
  optTruthyStr (area c) = false
  /\ match bedrooms c with
     | None => True
     | Some (BedNum n) => n = 0
     | Some (BedStr s) =>
         JsString.toLowerCase s <> "studio" /\ JsString.parseInt s = None
     end
  /\ optTruthyNum (maxPrice c) = false.

(** What the normalisation of one raw entry is, in the words of the
    specification: each field is the entry's own when it has one, and
    the sentinel otherwise. *)
Definition Normalizes (item : JsValue) (ad : Ad) : Prop :=
  exists t p l,
    prop item "title" = Some t /\ prop item "price" = Some p
    /\ prop item "link" = Some l
    /\ title ad = (if truthy t then t else VStr "No Title")
    /\ price ad = (if truthy p then p else VStr "Price not specified")
    /\ link ad = (if truthy l then l else VStr placeholderLink).

(** How a stored column relates to the criteria field written over it,
    as the code has it: an absent field leaves the column as it was, a
    usable value replaces it, and a value that is not usable (the empty
    string, the number 0) leaves the column as it was too. *)
Definition Coalesced {A} (given : option A) (usable : A -> Prop)
           (before after : option A) : Prop :=
  (given = None -> after = before)
  /\ (forall v, given = Some v -> usable v -> after = Some v)
  /\ (forall v, given = Some v -> ~ usable v -> after = before).

(** The same for the bedrooms column, which stores the text of the
    value; the text of a number is never empty. *)
Definition CoalescedBedrooms (given : option BedroomsValue)
           (before after : option string) : Prop :=
  (given = None -> after = before)
  /\ (forall s, given = Some (BedStr s) -> s <> "" -> after = Some s)
  /\ (forall n, given = Some (BedNum n) -> after = Some (numToString n))
  /\ (given = Some (BedStr "") -> after = before).



(** A stored row [after] is the row [before] overwritten by [c] at [now]. *)
Definition Overwrites (now : Z) (c : SearchCriteria)
           (before after : PreferenceRow) : Prop :=
  user_id after = user_id before
  /\ last_updated after = now
  /\ Coalesced (area c) (fun a => a <> "") (row_area before) (row_area after)
  /\ Coalesced (propertyType c) (fun t => t <> "")
               (property_type before) (property_type after)
  /\ CoalescedBedrooms (bedrooms c) (row_bedrooms before) (row_bedrooms after)
  /\ Coalesced (maxPrice c) (fun p => p <> 0) (max_price before) (max_price after)
  /\ Coalesced (minPrice c) (fun p => p <> 0) (min_price before) (min_price after).

(** The blank row a first save starts from. *)
Definition blankRow (userId : string) : PreferenceRow :=
  {| user_id := userId; row_area := None; property_type := None;
     row_bedrooms := None; max_price := None; min_price := None;
     last_updated := 0 |}.

(** One of the three branches guarded by [showingListingResults] runs. *)
Definition showingBranchTaken (st : ConversationState) (text : string) : bool :=
  showingListingResults st
  && (Regex.test showMorePattern text || Regex.test narrowPattern text
      || Regex.test savePattern text).

(** The claim "a turn in which the fetch throws ends in the
    conversation state the fetch was called in". *)
Definition failedFetchLeavesState (env : Env) (msg : Message) (w : World) : Prop :=
  forall st c requests,
    In (Fetched st c requests true) (events (turn env msg w)) ->
    conv (turn env msg w) = st.

(** The claim "while results are shown, a message that matches the save
    pattern leaves the conversation state as it is". *)
Definition saveKeepsState : Prop :=
  forall env msg w,
    showingListingResults (conv w) = true ->
    Regex.test savePattern (JsString.trim (msg_text msg)) = true ->
    conv (turn env msg w) = conv w.

End Vocabulary.

(** ** Vocabulary of the further properties *)

(** [a] occurs in [text], letter case aside. *)
Definition mentions (text a : string) : bool :=
  JsString.includes (JsString.toLowerCase text) (JsString.toLowerCase a).

(** The total of the waits in a record of effects, in milliseconds. *)
Fixpoint totalWait (effects : list Details.Effect) : Z :=
  match effects with
  | [] => 0
  | Details.Wait ms :: rest => ms + totalWait rest
  | Details.Request _ :: rest => totalWait rest
  end.

(** The value the caller of [fetchPropertyDetails] holds when the
    promise resolves: the parsed body, or the [null] of the outer
    [catch]. A body that is the JSON [null] gives the same value. *)
Definition resolvedValue (r : option Js.JsValue) : Js.JsValue :=
  match r with
  | Some data => data
  | None => Js.VNull
  end.

Section StoreVocabulary.
Import Store.

(** The [UNIQUE(user_id)] constraint of the [preferences] table. *)
Definition OneRowPerUser (db : Db) : Prop :=
  forall u, (List.length (selectByUser db u) <= 1)%nat.

(** The row [r] with its timestamp set to [now]. *)
Definition touched (now : Z) (r : PreferenceRow) : PreferenceRow :=
  {| user_id := user_id r; row_area := row_area r;
     property_type := property_type r; row_bedrooms := row_bedrooms r;
     max_price := max_price r; min_price := min_price r;
     last_updated := now |}.

(** The criteria a stored row gives back hold every field of [c] that
    was given. *)
Definition ReadsBack (c back : SearchCriteria) : Prop :=
  (forall a, area c = Some a -> a <> "" -> area back = Some a)
  /\ (forall t, propertyType c = Some t -> t <> "" -> propertyType back = Some t)
  /\ (forall s, bedrooms c = Some (BedStr s) -> s <> "" ->
        bedrooms back = Some (BedStr s))
  /\ (forall n, bedrooms c = Some (BedNum n) ->
        bedrooms back = Some (BedStr (numToString n)))
  /\ (forall p, maxPrice c = Some p -> p <> 0 -> maxPrice back = Some p)
  /\ (forall p, minPrice c = Some p -> p <> 0 -> minPrice back = Some p).

End StoreVocabulary.

Section TurnVocabulary.
Import Dialogue.

(** The replies handed to the callback, in order. *)
Definition repliesIn (evs : list Event) : list Content :=
  flat_map (fun e => match e with Replied r => [r] | _ => [] end) evs.

(** The request bodies sent to the listing provider, in order. *)
Definition requestsIn (evs : list Event) : list Js.Obj :=
  flat_map (fun e => match e with Fetched _ _ reqs _ => reqs | _ => [] end) evs.

(** The criteria passed to [saveSearchPreferences], in order. *)
Definition savesIn (evs : list Event) : list SearchCriteria :=
  flat_map (fun e => match e with Saved _ c => [c] | _ => [] end) evs.

(** Results are on display only with criteria to show them for. *)
Definition ShowingHasCriteria (st : ConversationState) : Prop :=
  showingListingResults st = true -> lastSearchCriteria st <> None.

End TurnVocabulary.

Section MatcherVocabulary.
Import JsString Regex.

(** What a pattern matches, said without the matcher:
    [Matches r u g g'] holds when [r] can consume exactly [u], turning the
    capture [g] into [g']. *)
Inductive Matches : regex -> string -> option string -> option string -> Prop :=
| M_Eps : forall g, Matches Eps "" g g
| M_Lit : forall c x g,
    lower_char c = lower_char x -> Matches (Lit c) (String x "") g g
| M_Class : forall (p : ascii -> bool) x g,
    p x = true -> Matches (Class p) (String x "") g g
| M_Cat : forall r1 r2 u v g g1 g2,
    Matches r1 u g g1 -> Matches r2 v g1 g2 -> Matches (Cat r1 r2) (u ++ v) g g2
| M_AltL : forall r1 r2 u g g1,
    Matches r1 u g g1 -> Matches (Alt r1 r2) u g g1
| M_AltR : forall r1 r2 u g g1,
    Matches r2 u g g1 -> Matches (Alt r1 r2) u g g1
| M_StarNil : forall r g, Matches (Star r) "" g g
| M_StarCons : forall r u v g g1 g2,
    Matches r u g g1 -> Matches (Star r) v g1 g2 -> Matches (Star r) (u ++ v) g g2
| M_Group : forall r u g g1,
    Matches r u g g1 -> Matches (Group r) u g (Some u).

(** The pattern has no capture group. *)
Fixpoint groupless (r : regex) : bool :=
  match r with
  | Eps | Lit _ | Class _ => true
  | Cat r1 r2 | Alt r1 r2 => groupless r1 && groupless r2
  | Star r1 => groupless r1
  | Group _ => false
  end.

(** The body of the group that every match of the pattern leaves in the
    capture, when its shape guarantees one: a group followed by
    groupless patterns, after anything. *)
Fixpoint capturing (r : regex) : option regex :=
  match r with
  | Group b => Some b
  | Cat r1 r2 =>
      match capturing r2 with
      | Some b => Some b
      | None => if groupless r2 then capturing r1 else None
      end
  | _ => None
  end.

(** Every character of [s] satisfies [p]. *)
Fixpoint allChars (p : ascii -> bool) (s : string) : bool :=
  match s with
  | EmptyString => true
  | String x s' => p x && allChars p s'
  end.

(** What [run] hands to its continuation: the rest of the input after a
    piece the pattern matches, with the capture that match leaves. *)
Definition Sound {X : Type} (r : regex) : Prop :=
  forall s g (k : @Cont X) x,
    run r s g k = Some x ->
    exists u s' g', s = u ++ s' /\ Matches r u g g' /\ k s' g' = Some x.

End MatcherVocabulary.

Section LinkVocabulary.
Import JsString Regex.

(** No match of the pattern contains white space. *)
Inductive Spaceless : regex -> Prop :=
| S_Eps : Spaceless Eps
| S_Lit : forall c, is_space c = false -> Spaceless (Lit c)
| S_Class : forall p : ascii -> bool,
    (forall x, p x = true -> is_space x = false) -> Spaceless (Class p)
| S_Cat : forall r1 r2, Spaceless r1 -> Spaceless r2 -> Spaceless (Cat r1 r2)
| S_Alt : forall r1 r2, Spaceless r1 -> Spaceless r2 -> Spaceless (Alt r1 r2)
| S_Star : forall r, Spaceless r -> Spaceless (Star r)
| S_Group : forall r, Spaceless r -> Spaceless (Group r).

Definition not_space (c : ascii) : bool := negb (is_space c).

(** The links requested, in order. *)
Definition linksIn (effects : list Details.Effect) : list string :=
  flat_map (fun e => match e with Details.Request l => [l] | _ => [] end) effects.

End LinkVocabulary.

(** ** Sample conversations *)

Module Scenario.
Import Dialogue.

(** A conversation with no prior turn, on a runtime without adapter. *)
Definition idle : World :=
  {| conv := initialState; sql := Store.SqlAbsent; events := [] |}.

(** The provider answers every search with an empty array. *)
Definition online : Env :=
  {| provider := fun _ => Ads.Response 200 (Some (Js.VArr []));
     now := 1; searchId := "search-1" |}.

(** The provider cannot be reached: [fetch] rejects. *)
Definition offline : Env :=
  {| provider := fun _ => Ads.NetworkError; now := 1; searchId := "search-1" |}.

Definition say (text : string) : Message :=
  {| msg_text := text; msg_id := "user-1"; msg_source := "discord" |}.

(** Browsing: the results of "2 bed in JVC" are on display. *)
Definition browsing : World := turn online (say "2 bed in JVC") idle.

End Scenario.

(** * Properties *)

Import Extract.

(** ** Substrings *)

Section Substrings.
Import JsString.

Lemma includes_unfold (s sub : string) :
  includes s sub =
  (startsWith s sub ||
   match s with EmptyString => false | String _ s' => includes s' sub end).
Proof. destruct s; reflexivity. Qed.

Lemma startsWith_includes (s sub : string) :
  startsWith s sub = true -> includes s sub = true.
Proof. intros H. rewrite includes_unfold, H. reflexivity. Qed.

Lemma includes_tail (c : ascii) (s sub : string) :
  includes s sub = true -> includes (String c s) sub = true.
Proof. intros H. rewrite includes_unfold, H. apply orb_true_r. Qed.

(** A text that starts with [a ++ b] contains [b]. *)
Lemma startsWith_append_includes (a b : string) :
  forall s, startsWith s (a ++ b) = true -> includes s b = true.
Proof.
  induction a as [|c a IH]; intros s H.
  - apply startsWith_includes. exact H.
  - destruct s as [|x s]; simpl in H; [discriminate|].
    apply andb_true_iff in H as [_ H].
    apply includes_tail, IH, H.
Qed.

(** A text that contains [a ++ b] contains [b]. *)
Lemma includes_append_right (a b : string) :
  forall s, includes s (a ++ b) = true -> includes s b = true.
Proof.
  induction s as [|x s IH]; intros H; rewrite includes_unfold in H;
    apply orb_true_iff in H as [H|H].
  - eapply startsWith_append_includes, H.
  - discriminate.
  - eapply startsWith_append_includes, H.
  - apply includes_tail, IH, H.
Qed.

Corollary includes_house (t prefix : string) :
  includes t "house" = false -> includes t (prefix ++ "house") = false.
Proof.
  intros H. destruct (includes t (prefix ++ "house")) eqn:E; [|reflexivity].
  apply includes_append_right in E. congruence.
Qed.
End Substrings.

(** ** The matcher *)

Section MatcherFuel.
Import Regex.
Context {X : Type}.

Lemma star_loop_local (body : string -> option string -> @Cont X -> option X) :
  LocalMatcher body ->
  forall n s g k1 k2,
    (forall s' g', (String.length s' <= String.length s)%nat -> k1 s' g' = k2 s' g') ->
    star_loop body k1 n s g = star_loop body k2 n s g.
Proof.
  intros Hbody. induction n as [|n IH]; intros s g k1 k2 Hk; cbn [star_loop].
  - apply Hk. lia.
  - rewrite (Hk s g) by lia.
    erewrite Hbody; [reflexivity|].
    intros s' g' Hle. cbn beta.
    destruct (String.length s' <? String.length s)%nat eqn:E; [|reflexivity].
    apply IH. intros s'' g'' Hle'. apply Hk. lia.
Qed.

Lemma run_local (r : regex) : LocalMatcher (@run X r).
Proof.
  induction r as [|c|p|r1 IH1 r2 IH2|r1 IH1 r2 IH2|r1 IH1|r1 IH1];
    intros s g k1 k2 Hk; cbn [run].
  - apply Hk. lia.
  - destruct s as [|x s']; [reflexivity|].
    destruct (Ascii.eqb _ _); [|reflexivity]. apply Hk. cbn. lia.
  - destruct s as [|x s']; [reflexivity|].
    destruct (p x); [|reflexivity]. apply Hk. cbn. lia.
  - apply IH1. intros s' g' Hle. apply IH2.
    intros s'' g'' Hle'. apply Hk. lia.
  - rewrite (IH1 s g k1 k2 Hk), (IH2 s g k1 k2 Hk). reflexivity.
  - apply star_loop_local; assumption.
  - apply IH1. intros s' g' Hle. apply Hk. exact Hle.
Qed.

Lemma star_loop_fails (body : string -> option string -> @Cont X -> option X) :
  LocalMatcher body ->
  (forall s g, body s g (fun _ _ => None) = None) ->
  forall n s g, star_loop body (fun _ _ => None) n s g = None.
Proof.
  intros Hlocal Hfail. induction n as [|n IH]; intros s g; cbn [star_loop].
  - reflexivity.
  - erewrite Hlocal; [rewrite Hfail; reflexivity|].
    intros s' g' _. cbn beta. rewrite IH. destruct (_ <? _)%nat; reflexivity.
Qed.

Lemma run_fails (r : regex) :
  forall s g, @run X r s g (fun _ _ => None) = None.
Proof.
  induction r as [|c|p|r1 IH1 r2 IH2|r1 IH1 r2 IH2|r1 IH1|r1 IH1];
    intros s g; cbn [run].
  - reflexivity.
  - destruct s as [|x s']; [reflexivity|]. destruct (Ascii.eqb _ _); reflexivity.
  - destruct s as [|x s']; [reflexivity|]. destruct (p x); reflexivity.
  - erewrite run_local; [apply IH1|]. intros s' g' _. apply IH2.
  - rewrite IH1, IH2. reflexivity.
  - apply star_loop_fails; [apply run_local|exact IH1].
  - apply IH1.
Qed.

(** The bound on the iterations of a star is never what stops them:
    allowing more iterations than the input has characters changes
    nothing. *)
Lemma star_loop_bound_exact (r : regex) (k : @Cont X) :
  forall n s g,
    (String.length s <= n)%nat ->
    star_loop (run r) k n s g = star_loop (run r) k (String.length s) s g.
Proof.
  assert (Hstep : forall n s g, (String.length s <= n)%nat ->
            star_loop (run r) k (S n) s g = star_loop (run r) k n s g).
  { induction n as [|n IH]; intros s g Hle.
    - cbn [star_loop].
      erewrite run_local; [rewrite run_fails; reflexivity|].
      intros s' g' _. cbn beta.
      destruct (String.length s' <? String.length s)%nat eqn:E; [|reflexivity].
      apply Nat.ltb_lt in E. lia.
    - change (star_loop (run r) k (S (S n)) s g)
        with (run r s g (fun s' g' =>
                if (String.length s' <? String.length s)%nat
                then star_loop (run r) k (S n) s' g' else None)
              <|> k s g).
      change (star_loop (run r) k (S n) s g)
        with (run r s g (fun s' g' =>
                if (String.length s' <? String.length s)%nat
                then star_loop (run r) k n s' g' else None)
              <|> k s g).
      erewrite run_local; [reflexivity|].
      intros s' g' _. cbn beta.
      destruct (String.length s' <? String.length s)%nat eqn:E; [|reflexivity].
      apply Nat.ltb_lt in E. apply IH. lia. }
  intros n s g Hle.
  induction n as [|n IH].
  - replace (String.length s) with 0%nat by lia. reflexivity.
  - destruct (Nat.eq_dec (String.length s) (S n)) as [->|Hne]; [reflexivity|].
    rewrite Hstep by lia. apply IH. lia.
Qed.

End MatcherFuel.

(** The patterns of the plugin on sample texts: case folding, greedy
    quantifiers with backtracking ("max" is tried before "maximum"), the
    leftmost match, and the capture. *)
Example price_pattern_samples :
  Regex.exec maxPricePattern "Budget: maximum AED 1,234,567.50 dirhams!"
    = Some {| Regex.m0 := "maximum AED 1,234,567.50 dirhams";
              Regex.m1 := "1,234,567.50" |}
  /\ Regex.exec maxPricePattern "UP TO 2.5M or so"
     = Some {| Regex.m0 := "UP TO 2.5M"; Regex.m1 := "2.5" |}
  /\ Regex.exec maxPricePattern "under budget" = None
  /\ Regex.exec bedroomPattern "a 12 BHK flat, 3 beds"
     = Some {| Regex.m0 := "12 BHK"; Regex.m1 := "12" |}.
Proof. repeat split; vm_compute; reflexivity. Qed.

Example dialogue_pattern_samples :
  Regex.test Dialogue.showMorePattern "please Show   more" = true
  /\ Regex.test Dialogue.showMorePattern "showmore" = false
  /\ Regex.test Dialogue.narrowPattern "save this filter" = true
  /\ Regex.test Dialogue.savePattern "save this filter" = true
  /\ Regex.test Dialogue.savePattern "save these criteria" = true
  /\ Regex.test Dialogue.narrowPattern "save these criteria" = false
  /\ Regex.test Dialogue.savedSearchPattern "what was my last search" = true
  /\ Regex.test Dialogue.newListingsPattern "any new listings?" = true
  /\ Regex.test Dialogue.savedSearchPattern "thanks" = false.
Proof. repeat split; vm_compute; reflexivity. Qed.

(** ** extractSearchCriteria *)

(** C10. For every text, the property type extracted is absent,
    "apartment" or "villa": a text that contains "townhouse" or
    "penthouse" contains "house", which the villa test sees first, so
    neither "townhouse" nor "penthouse" is ever returned. *)
Theorem extract_propertyType_range (text : string) :
  (propertyType (extractSearchCriteria text) = None
   \/ propertyType (extractSearchCriteria text) = Some "apartment"
   \/ propertyType (extractSearchCriteria text) = Some "villa")
  /\ propertyType (extractSearchCriteria text) <> Some "townhouse"
  /\ propertyType (extractSearchCriteria text) <> Some "penthouse".
Proof.
  cbn [extractSearchCriteria propertyType]. unfold findPropertyType.
  set (t := JsString.toLowerCase text).
  destruct (JsString.includes t "apartment" || JsString.includes t "flat").
  { repeat split; auto; discriminate. }
  destruct (JsString.includes t "villa" || JsString.includes t "house") eqn:E.
  { repeat split; auto; discriminate. }
  apply orb_false_iff in E as [_ E].
  pose proof (includes_house t "town" E) as Htown.
  pose proof (includes_house t "pent" E) as Hpent.
  cbn [String.append] in Htown, Hpent. rewrite Htown, Hpent.
  repeat split; auto; discriminate.
Qed.

(** The two wordings of the specification's example both give 1500000. *)
Example extract_under_1_5_million :
  maxPrice (extractSearchCriteria "under 1.5 million AED") = Some 1500000
  /\ maxPrice (extractSearchCriteria "under 1.5M") = Some 1500000.
Proof. split; vm_compute; reflexivity. Qed.

Example extract_3_bed_JVC :
  extractSearchCriteria "3 bed in JVC under 2,000,000" =
  {| area := Some "JVC"; propertyType := None; bedrooms := Some (BedStr "3");
     maxPrice := Some 2000000; minPrice := None |}.
Proof. vm_compute. reflexivity. Qed.

(** C2. The factor is chosen by looking for the letter m in the whole
    matched phrase, lead words included. In "max 500k" the match is the
    whole text, its numeric literal is 500 and its suffix is k, and yet
    the m of "max" selects the factor 1000000: the maximum price comes
    out as 500000000 and not as 500 * 1000. The lead words "more than",
    "min" and "minimum" do the same to a minimum price. *)
Theorem extract_max_500k_scaled_by_million :
  Regex.exec maxPricePattern "max 500k"
    = Some {| Regex.m0 := "max 500k"; Regex.m1 := "500" |}
  /\ maxPrice (extractSearchCriteria "max 500k") = Some 500000000
  /\ minPrice (extractSearchCriteria "min 500k") = Some 500000000
  /\ 500000000 <> 500 * 1000.
Proof. repeat split; try (vm_compute; reflexivity). lia. Qed.

(** ** fetchAds *)

Section FetchAds.
Import Js Ads.

(** The case analysis that [buildPayload] performs on the criteria. *)
Ltac payload_cases c :=
  unfold buildPayload;
  destruct (area c) as [a|]; [destruct (JsString.truthy a)|];
  (destruct (bedrooms c) as [[b|n]|];
   [ destruct (JsString.truthy b) eqn:Hb;
     [ destruct (String.eqb (JsString.toLowerCase b) "studio") eqn:Hstudio;
       [| destruct (JsString.parseInt b) as [numBedrooms|] eqn:Hparse ] | ]
   | destruct (n =? 0) eqn:Hn
   | ]);
  (destruct (maxPrice c) as [p|]; [destruct (p =? 0) eqn:Hp|]);
  cbn.

(** At most one request is made: none for an empty payload, otherwise
    one whose body is the payload. *)
Lemma fetchAds_requests (provider : Provider) (c : SearchCriteria) :
  fst (fetchAds provider c) =
  match buildPayload c with [] => [] | _ :: _ => [buildPayload c] end.
Proof.
  unfold fetchAds. destruct (buildPayload c) as [|kv payload] eqn:E; [reflexivity|].
  cbn [obj_keys map List.length Nat.eqb].
  destruct (provider (kv :: payload)) as [|status [json|]]; try reflexivity;
    destruct (negb (ok status)); try reflexivity.
  destruct (findListings json) as [[raw|]|]; try reflexivity.
  destruct (mapNormalize raw); reflexivity.
Qed.


Lemma payload_bedrooms_studio (c : SearchCriteria) (s : string) :
  bedrooms c = Some (BedStr s) ->
  JsString.toLowerCase s = "studio" ->
  obj_get (buildPayload c) "bedrooms" = Some (VNum 0).
Proof.
  intros Hbed Hlow.
  assert (Hs : JsString.truthy s = true) by (destruct s; [discriminate|reflexivity]).
  unfold buildPayload. rewrite Hbed, Hs, Hlow. cbn.
  destruct (area c) as [a|]; [destruct (JsString.truthy a)|];
    (destruct (maxPrice c) as [p|]; [destruct (p =? 0)|]); reflexivity.
Qed.

Lemma payload_bedrooms_parsed (c : SearchCriteria) (s : string) :
  bedrooms c = Some (BedStr s) ->
  JsString.toLowerCase s <> "studio" ->
  obj_get (buildPayload c) "bedrooms" = option_map VNum (JsString.parseInt s).
Proof.
  intros Hbed Hlow.
  apply String.eqb_neq in Hlow.
  unfold buildPayload. rewrite Hbed, Hlow.
  destruct s as [|x s].
  - cbn. destruct (area c) as [a|]; [destruct (JsString.truthy a)|];
      (destruct (maxPrice c) as [p|]; [destruct (p =? 0)|]); reflexivity.
  - cbn [JsString.truthy].
    destruct (JsString.parseInt (String x s)) as [numBedrooms|];
      destruct (area c) as [a|]; [destruct (JsString.truthy a)| |destruct (JsString.truthy a)|];
      (destruct (maxPrice c) as [p|]; [destruct (p =? 0)|]); reflexivity.
Qed.


(** C8. The payload is empty exactly when the criteria carry no area,
    no usable bedrooms value and no maximum price, and for every
    criteria object with an empty payload [fetchAds] returns the empty
    sequence of listings and sends no request. *)
Theorem fetchAds_without_criteria (provider : Provider) (c : SearchCriteria) :
  (buildPayload c = [] <-> NothingToSend c)
  /\ (buildPayload c = [] -> fetchAds provider c = ([], Returned [])).
Proof.
  split.
  - unfold NothingToSend, Dialogue.optTruthyStr, Dialogue.optTruthyNum.
    payload_cases c; (split; [intros E | intros (Harea & Hbed & Hmax)]);
      try discriminate; try (destruct Hbed; congruence).
    all: try (apply String.eqb_eq in Hstudio; destruct Hbed; contradiction).
    all: try (subst n; discriminate).
    all: repeat split; try reflexivity.
    all: try (apply String.eqb_neq; assumption).
    all: try (apply Z.eqb_eq; assumption).
    all: try (destruct b; [discriminate || reflexivity | discriminate]).
  - intros E. unfold fetchAds. rewrite E. reflexivity.
Qed.

Lemma fetchAds_without_criteria_witness :
  NothingToSend {| area := Some ""; propertyType := Some "villa";
                   bedrooms := Some (BedStr "a few"); maxPrice := Some 0;
                   minPrice := Some 100000 |}
  /\ fetchAds (fun _ => NetworkError)
       {| area := Some ""; propertyType := Some "villa";
          bedrooms := Some (BedStr "a few"); maxPrice := Some 0;
          minPrice := Some 100000 |} = ([], Returned []).
Proof.
  destruct (fetchAds_without_criteria (fun _ => NetworkError)
              {| area := Some ""; propertyType := Some "villa";
                 bedrooms := Some (BedStr "a few"); maxPrice := Some 0;
                 minPrice := Some 100000 |}) as [Hiff Hsend].
  split.
  - apply Hiff. reflexivity.
  - apply Hsend. reflexivity.
Defined.



Lemma normalize_Normalizes (item : JsValue) (ad : Ad) :
  normalize item = Returned ad -> Normalizes item ad.
Proof.
  unfold normalize, Normalizes, or_else.
  destruct (prop item "title") as [t|]; [|discriminate].
  destruct (prop item "price") as [p|]; [|discriminate].
  destruct (prop item "link") as [l|]; [|discriminate].
  intros [= <-]. exists t, p, l. cbn. repeat split; reflexivity.
Qed.

Lemma mapNormalize_pointwise (raw : list JsValue) :
  forall normalized,
    mapNormalize raw = Returned normalized ->
    Forall2 Normalizes raw normalized.
Proof.
  induction raw as [|item raw IH]; cbn; intros normalized H.
  - injection H as <-. constructor.
  - destruct (normalize item) as [ad|] eqn:Had; [|discriminate].
    destruct (mapNormalize raw) as [ads|]; [|discriminate].
    injection H as <-. constructor; [apply normalize_Normalizes, Had | apply IH; reflexivity].
Qed.

Lemma validLink_spec (ad : Ad) :
  validLink ad = true ->
  truthy (link ad) = true /\ link ad <> VStr placeholderLink.
Proof.
  unfold validLink. intros H. apply andb_true_iff in H as [Ht Hn].
  split; [exact Ht|]. intros E. rewrite E in Hn. discriminate.
Qed.

Lemma in_firstn {A} (n : nat) :
  forall (l : list A) (x : A), In x (firstn n l) -> In x l.
Proof.
  induction n as [|n IH]; intros [|y l] x H; cbn in H; try contradiction.
  destruct H as [->|H]; [left; reflexivity | right; apply IH, H].
Qed.

Lemma firstn_filter_valid (n : nat) (ads : list Ad) :
  Forall (fun ad => truthy (link ad) = true /\ link ad <> VStr placeholderLink)
         (firstn n (filter validLink ads)).
Proof.
  apply Forall_forall. intros ad Hin.
  apply validLink_spec.
  apply in_firstn in Hin. apply filter_In in Hin. apply Hin.
Qed.

(** An entry the provider sends without a link, or with the placeholder
    as its link, does not pass the filter. *)
Lemma placeholder_dropped (item : JsValue) (ad : Ad) :
  Normalizes item ad ->
  prop item "link" = Some VUndefined \/ prop item "link" = Some (VStr placeholderLink) ->
  validLink ad = false.
Proof.
  intros (t & p & l & _ & _ & Hl & _ & _ & Hlink) [H|H];
    rewrite H in Hl; injection Hl as <-; unfold validLink; rewrite Hlink; reflexivity.
Qed.

(** What the normalisation makes of an entry that is a bare string: the
    read of [link] finds [String.prototype.link], which is truthy and is
    not the placeholder, so the entry passes the filter. *)
Lemma normalize_string (s : string) :
  normalize (VStr s)
  = Returned {| title := VStr "No Title"; price := VStr "Price not specified";
                link := VMethod "link" |}.
Proof. reflexivity. Qed.

Lemma mapNormalize_strings (items : list string) :
  mapNormalize (map VStr items)
  = Returned (map (fun _ => {| title := VStr "No Title";
                               price := VStr "Price not specified";
                               link := VMethod "link" |}) items).
Proof.
  induction items as [|s items IH]; [reflexivity|].
  cbn [map mapNormalize]. rewrite normalize_string, IH. reflexivity.
Qed.

Lemma filter_validLink_strings (items : list string) :
  filter validLink
         (map (fun _ => {| title := VStr "No Title";
                           price := VStr "Price not specified";
                           link := VMethod "link" |}) items)
  = map (fun _ => {| title := VStr "No Title";
                     price := VStr "Price not specified";
                     link := VMethod "link" |}) items.
Proof.
  induction items as [|s items IH]; [reflexivity|].
  cbn [map filter]. change (validLink _) with true. cbn iota.
  rewrite IH. reflexivity.
Qed.

Lemma payload_sent (c : SearchCriteria) :
  buildPayload c <> [] ->
  (List.length (obj_keys (buildPayload c)) =? 0)%nat = false.
Proof.
  intros H. destruct (buildPayload c); [contradiction|reflexivity].
Qed.

(** C6. An entry without a link is not always dropped. When the
    provider answers with an array of bare strings, which have no title,
    no price and no link, [fetchAds] returns a listing for each of the
    first five: its title is "No Title", its price "Price not specified"
    and its link the method every string inherits, which passes the test
    [ad.link && ad.link !== '#']. *)
Theorem fetchAds_keeps_string_entries (provider : Provider) (c : SearchCriteria)
        (status : Z) (items : list string) :
  buildPayload c <> [] ->
  provider (buildPayload c) = Response status (Some (VArr (map VStr items))) ->
  ok status = true ->
  (forall s, In s items ->
     prop (VStr s) "title" = Some VUndefined
     /\ prop (VStr s) "price" = Some VUndefined
     /\ prop (VStr s) "link" = Some (VMethod "link"))
  /\ fetchAds provider c
     = ([buildPayload c],
        Returned (firstn 5 (map (fun _ => {| title := VStr "No Title";
                                             price := VStr "Price not specified";
                                             link := VMethod "link" |}) items))).
Proof.
  intros Hpayload Hanswer Hok. split; [intros s _; repeat split|].
  unfold fetchAds. rewrite (payload_sent c Hpayload), Hanswer, Hok.
  cbn [negb findListings]. rewrite mapNormalize_strings, filter_validLink_strings.
  reflexivity.
Qed.

Lemma fetchAds_keeps_string_entries_witness :
  fetchAds (fun _ => Response 200 (Some (VArr [VStr "abc"])))
           {| area := Some "JVC"; propertyType := None; bedrooms := None;
              maxPrice := None; minPrice := None |}
  = ([[("area", VStr "JVC")]],
     Returned [ {| title := VStr "No Title"; price := VStr "Price not specified";
                   link := VMethod "link" |} ]).
Proof.
  apply (fetchAds_keeps_string_entries
           (fun _ => Response 200 (Some (VArr [VStr "abc"])))
           {| area := Some "JVC"; propertyType := None; bedrooms := None;
              maxPrice := None; minPrice := None |}
           200 ["abc"]).
  - discriminate.
  - reflexivity.
  - reflexivity.
Defined.

(** X23. What [fetchAds] returns, when it returns: nothing when the
    payload is empty or the answer has none of the three shapes;
    otherwise the first five, in the provider's order, of the normalised
    entries whose link is truthy and is not the placeholder. The result
    never has more than 5 listings and never one with a falsy or
    placeholder link. The normalisation puts "No Title" for a title the
    entry does not have and "Price not specified" for a price it does not
    have, and an entry that is an object without a link, or with the
    placeholder as its link, does not pass the filter. *)
Theorem fetchAds_listings (provider : Provider) (c : SearchCriteria)
        (ads : list Ad) :
  snd (fetchAds provider c) = Returned ads ->
  (List.length ads <= 5)%nat
  /\ Forall (fun ad => truthy (link ad) = true /\ link ad <> VStr placeholderLink) ads
  /\ ((buildPayload c = [] /\ ads = [])
      \/ exists status json,
           buildPayload c <> []
           /\ provider (buildPayload c) = Response status (Some json)
           /\ ok status = true
           /\ ((findListings json = Returned None /\ ads = [])
               \/ exists raw normalized,
                    findListings json = Returned (Some raw)
                    /\ Forall2 Normalizes raw normalized
                    /\ ads = firstn 5 (filter validLink normalized)))
  /\ (forall item ad, Normalizes item ad ->
        (prop item "title" = Some VUndefined -> title ad = VStr "No Title")
        /\ (prop item "price" = Some VUndefined ->
            price ad = VStr "Price not specified")
        /\ (prop item "link" = Some VUndefined
            \/ prop item "link" = Some (VStr placeholderLink) ->
            validLink ad = false)).
Proof.
  intros H. unfold fetchAds in H.
  assert (Hnorm : forall item ad, Normalizes item ad ->
        (prop item "title" = Some VUndefined -> title ad = VStr "No Title")
        /\ (prop item "price" = Some VUndefined ->
            price ad = VStr "Price not specified")
        /\ (prop item "link" = Some VUndefined
            \/ prop item "link" = Some (VStr placeholderLink) ->
            validLink ad = false)).
  { intros item ad HN. split; [|split].
    - destruct HN as (t & p & l & Ht & _ & _ & Htitle & _). intros E.
      rewrite E in Ht. injection Ht as <-. exact Htitle.
    - destruct HN as (t & p & l & _ & Hp & _ & _ & Hprice & _). intros E.
      rewrite E in Hp. injection Hp as <-. exact Hprice.
    - apply placeholder_dropped, HN. }
  destruct (buildPayload c) as [|entry payload] eqn:Hpayload.
  { injection H as <-.
    split; [cbn; lia|]. split; [constructor|]. split; [left; auto|exact Hnorm]. }
  cbn [obj_keys map List.length Nat.eqb] in H.
  destruct (provider (entry :: payload)) as [|status [json|]] eqn:Hresp;
    try discriminate; destruct (ok status) eqn:Hok; try discriminate.
  cbn [negb] in H.
  destruct (findListings json) as [[raw|]|] eqn:Hfind; try discriminate.
  - destruct (mapNormalize raw) as [normalized|] eqn:Hmap; [|discriminate].
    cbn [snd] in H. injection H as <-. split; [|split; [|split]].
    + exact (firstn_le_length 5 (filter validLink normalized)).
    + exact (firstn_filter_valid 5 normalized).
    + right. exists status, json. split; [discriminate|].
      split; [reflexivity|]. split; [exact Hok|].
      right. exists raw, normalized.
      repeat split; auto using mapNormalize_pointwise.
    + exact Hnorm.
  - injection H as <-.
    split; [cbn; lia|]. split; [constructor|]. split; [|exact Hnorm].
    right. exists status, json. split; [discriminate|].
    split; [reflexivity|]. split; [exact Hok|]. left. auto.
Qed.

Lemma fetchAds_listings_witness :
  snd (fetchAds
         (fun _ => Response 200 (Some (VObj [("listings",
            VArr [ VObj [("price", VStr "AED 1"); ("link", VStr "https://a")];
                   VObj [("title", VStr "B"); ("link", VStr "#")];
                   VObj [("title", VStr "C")] ])])))
         {| area := Some "JVC"; propertyType := None; bedrooms := None;
            maxPrice := None; minPrice := None |})
  = Returned [ {| title := VStr "No Title"; price := VStr "AED 1";
                  link := VStr "https://a" |} ]
  /\ (List.length [ {| title := VStr "No Title"; price := VStr "AED 1";
                       link := VStr "https://a" |} ] <= 5)%nat.
Proof.
  split; [vm_compute; reflexivity|].
  apply (fetchAds_listings
    (fun _ => Response 200 (Some (VObj [("listings",
       VArr [ VObj [("price", VStr "AED 1"); ("link", VStr "https://a")];
              VObj [("title", VStr "B"); ("link", VStr "#")];
              VObj [("title", VStr "C")] ])])))
    {| area := Some "JVC"; propertyType := None; bedrooms := None;
       maxPrice := None; minPrice := None |}).
  vm_compute. reflexivity.
Defined.

End FetchAds.

(** ** fetchPropertyDetails *)

Section DetailRetries.
Import Js Details.

Variable server : Server.
Variable link : string.

Lemma status_200_ok (status : Z) : (status =? 200) = true -> Ads.ok status = true.
Proof. intros H. apply Z.eqb_eq in H. subst. reflexivity. Qed.

(** One pass through the loop body: a failed attempt is followed by
    the wait, if any, and by the rest of the loop; any other attempt
    ends the loop with the parsed body. *)
Lemma attemptsFrom_step (remaining : nat) (attempt : Z) :
  attemptsFrom link server (S remaining) attempt =
  if attemptFails (server attempt) then
    ((Request link :: waitBeforeRetry attempt)
       ++ fst (attemptsFrom link server remaining (attempt + 1)),
     snd (attemptsFrom link server remaining (attempt + 1)))%list
  else
    match server attempt with
    | Status _ (Some data) => ([Request link], Returned data)
    | _ => ([], Thrown)
    end.
Proof.
  cbn [attemptsFrom].
  destruct (attemptsFrom link server remaining (attempt + 1)) as [effects out].
  destruct (server attempt) as [|status [data|]]; cbn [attemptFails fst snd];
    try reflexivity.
  - destruct (status =? 200) eqn:E.
    + rewrite (status_200_ok _ E). reflexivity.
    + destruct (Ads.ok status); reflexivity.
  - rewrite orb_true_r.
    destruct (status =? 200); [reflexivity|].
    destruct (Ads.ok status); reflexivity.
Qed.


Lemma not_fails_body (r : AttemptResult) :
  attemptFails r = false ->
  exists status data, r = Status status (Some data) /\ Ads.ok status = true.
Proof.
  destruct r as [|status [data|]]; cbn; intros F.
  - discriminate.
  - rewrite orb_false_r in F. apply negb_false_iff in F. eauto.
  - rewrite orb_true_r in F. discriminate.
Qed.

(** The four ways the retry loop can go. *)
Lemma fetchPropertyDetails_cases :
  (attemptFails (server 1) = false
   /\ exists status data,
        server 1 = Status status (Some data)
        /\ fetchPropertyDetails server link = ([Request link], Some data))
  \/ (attemptFails (server 1) = true /\ attemptFails (server 2) = false
      /\ exists status data,
           server 2 = Status status (Some data)
           /\ fetchPropertyDetails server link
              = ([Request link; Wait 1000; Request link], Some data))
  \/ (attemptFails (server 1) = true /\ attemptFails (server 2) = true
      /\ attemptFails (server 3) = false
      /\ exists status data,
           server 3 = Status status (Some data)
           /\ fetchPropertyDetails server link
              = ([Request link; Wait 1000; Request link; Wait 2000;
                  Request link], Some data))
  \/ (attemptFails (server 1) = true /\ attemptFails (server 2) = true
      /\ attemptFails (server 3) = true
      /\ fetchPropertyDetails server link
         = ([Request link; Wait 1000; Request link; Wait 2000; Request link],
            None)).
Proof.
  unfold fetchPropertyDetails.
  change (Z.to_nat MAX_ATTEMPTS) with 3%nat.
  rewrite !attemptsFrom_step.
  cbn [attemptsFrom fst snd].
  change (1 + 1) with 2. change (2 + 1) with 3.
  destruct (attemptFails (server 1)) eqn:F1.
  2: { destruct (not_fails_body _ F1) as (status & data & E & _). rewrite E.
       left. eauto 6. }
  destruct (attemptFails (server 2)) eqn:F2.
  2: { destruct (not_fails_body _ F2) as (status & data & E & _). rewrite E.
       right. left. eauto 8. }
  destruct (attemptFails (server 3)) eqn:F3.
  2: { destruct (not_fails_body _ F3) as (status & data & E & _). rewrite E.
       right. right. left. eauto 10. }
  right. right. right. auto.
Qed.


End DetailRetries.


(** ** saveSearchPreferences *)

Section Upsert.
Import Store.

Lemma strOrNull_coalesced (given before : option string) :
  Coalesced given (fun a => a <> "") before (coalesce (strOrNull given) before).
Proof.
  split; [|split].
  - intros ->. reflexivity.
  - intros v -> Hv. destruct v; [contradiction|reflexivity].
  - intros v -> Hv. destruct v; [reflexivity|].
    exfalso. apply Hv. discriminate.
Qed.

Lemma numOrNull_coalesced (given before : option Z) :
  Coalesced given (fun p => p <> 0) before (coalesce (numOrNull given) before).
Proof.
  split; [|split].
  - intros ->. reflexivity.
  - intros v -> Hv. cbn. apply Z.eqb_neq in Hv. rewrite Hv. reflexivity.
  - intros v -> Hv. cbn. destruct (v =? 0) eqn:E; [reflexivity|].
    apply Z.eqb_neq in E. contradiction.
Qed.

Lemma numToString_truthy (n : Z) : JsString.truthy (numToString n) = true.
Proof.
  unfold numToString, NilZero.string_of_int, NilZero.string_of_uint.
  destruct (Z.to_int n) as [d|d]; destruct d; reflexivity.
Qed.

Lemma bedroomsOrNull_coalesced (given : option BedroomsValue)
      (before : option string) :
  CoalescedBedrooms given before (coalesce (bedroomsOrNull given) before).
Proof.
  split; [|split; [|split]].
  - intros ->. reflexivity.
  - intros s -> Hs. destruct s; [contradiction|reflexivity].
  - intros n ->. cbn. rewrite numToString_truthy. reflexivity.
  - intros ->. reflexivity.
Qed.

Lemma updateRow_overwrites (now : Z) (c : SearchCriteria) (r : PreferenceRow) :
  Overwrites now c r (updateRow now c r).
Proof.
  unfold Overwrites, updateRow; cbn.
  auto 10 using strOrNull_coalesced, numOrNull_coalesced, bedroomsOrNull_coalesced.
Qed.

Lemma newRow_overwrites (now : Z) (userId : string) (c : SearchCriteria) :
  Overwrites now c (blankRow userId) (newRow now userId c).
Proof.
  pose proof (updateRow_overwrites now c (blankRow userId)) as H.
  unfold updateRow, blankRow, coalesce in H; cbn in H.
  unfold newRow.
  destruct (strOrNull (area c)), (strOrNull (propertyType c)),
    (bedroomsOrNull (bedrooms c)), (numOrNull (maxPrice c)),
    (numOrNull (minPrice c)); exact H.
Qed.

Lemma selectByUser_nonempty (db : Db) (userId : string) :
  selectByUser db userId <> [] <->
  exists r, In r (preferences db) /\ user_id r = userId.
Proof.
  unfold selectByUser. split.
  - destruct (filter _ (preferences db)) as [|r rest] eqn:E; [congruence|].
    intros _. exists r.
    assert (Hin : In r (filter (fun r => String.eqb (user_id r) userId) (preferences db)))
      by (rewrite E; left; reflexivity).
    apply filter_In in Hin as [Hin Heq]. apply String.eqb_eq in Heq. auto.
  - intros (r & Hin & Heq) E.
    assert (Hin' : In r (filter (fun r => String.eqb (user_id r) userId) (preferences db))).
    { apply filter_In. split; [exact Hin|]. apply String.eqb_eq, Heq. }
    rewrite E in Hin'. destruct Hin'.
Qed.

Variables (now : Z) (searchId userId : string) (c : SearchCriteria).
Hypothesis userId_given : userId <> "".

Lemma userId_truthy : JsString.truthy userId = true.
Proof. destruct userId; [contradiction|reflexivity]. Qed.

(** With a row already stored, every row of the user is overwritten in
    place and no other row changes. *)
Lemma save_existing (db : Db) :
  selectByUser db userId <> [] ->
  exists db',
    saveSearchPreferences (SqlLive db) now searchId userId c = SqlLive db'
    /\ List.length (preferences db') = List.length (preferences db)
    /\ forall i r, nth_error (preferences db) i = Some r ->
         exists r', nth_error (preferences db') i = Some r'
           /\ (user_id r <> userId -> r' = r)
           /\ (user_id r = userId -> Overwrites now c r r').
Proof.
  intros Hrow. unfold saveSearchPreferences. rewrite userId_truthy. cbn [negb].
  destruct (selectByUser db userId) as [|r0 rest] eqn:E; [congruence|].
  cbn [List.length Nat.ltb Nat.leb].
  eexists. split; [reflexivity|]. cbn [preferences]. unfold updatePreferences.
  split; [apply length_map|].
  intros i r Hi. rewrite nth_error_map, Hi. cbn [option_map].
  eexists. split; [reflexivity|].
  destruct (String.eqb (user_id r) userId) eqn:Heq.
  - apply String.eqb_eq in Heq. split; [congruence|].
    intros _. apply updateRow_overwrites.
  - apply String.eqb_neq in Heq. split; [reflexivity|congruence].
Qed.

(** Without one, a row is appended. *)
Lemma save_fresh (db : Db) :
  selectByUser db userId = [] ->
  exists db' r,
    saveSearchPreferences (SqlLive db) now searchId userId c = SqlLive db'
    /\ preferences db' = (preferences db ++ [r])%list
    /\ user_id r = userId
    /\ Overwrites now c (blankRow userId) r.
Proof.
  intros Hrow. unfold saveSearchPreferences. rewrite userId_truthy, Hrow.
  cbn [negb List.length Nat.ltb Nat.leb].
  eexists. exists (newRow now userId c). split; [reflexivity|].
  split; [reflexivity|]. split; [reflexivity|apply newRow_overwrites].
Qed.

(** After a save the user has a row. *)
Lemma save_leaves_row (db : Db) :
  exists db',
    saveSearchPreferences (SqlLive db) now searchId userId c = SqlLive db'
    /\ selectByUser db' userId <> [].
Proof.
  destruct (selectByUser db userId) as [|r0 rest] eqn:E.
  - destruct (save_fresh db E) as (db' & r & Hsave & Hprefs & Hid & _).
    exists db'. split; [exact Hsave|].
    apply selectByUser_nonempty. exists r. rewrite Hprefs. split; [|exact Hid].
    apply in_or_app. right. left. reflexivity.
  - assert (Hne : selectByUser db userId <> []) by (rewrite E; discriminate).
    destruct (save_existing db Hne) as (db' & Hsave & Hlen & Hrows).
    exists db'. split; [exact Hsave|].
    apply selectByUser_nonempty.
    apply selectByUser_nonempty in Hne as (r & Hin & Hid).
    apply In_nth_error in Hin as (i & Hi).
    destruct (Hrows i r Hi) as (r' & Hi' & _ & Hover).
    exists r'. split; [eapply nth_error_In, Hi'|].
    destruct (Hover Hid) as (Huser & _). congruence.
Qed.

End Upsert.




(** The scenario of the specification, evaluated: the second save keeps
    the area and the bedrooms and overwrites the type and the price. *)
Example save_twice_keeps_area :
  Store.saveSearchPreferences
    (Store.saveSearchPreferences
       (Store.SqlLive {| Store.preferences := []; Store.search_logs := [] |})
       10 "search-1" "user-1"
       {| area := Some "JVC"; propertyType := None;
          bedrooms := Some (BedStr "2"); maxPrice := Some 900000;
          minPrice := None |})
    20 "search-2" "user-1"
    {| area := None; propertyType := Some "villa"; bedrooms := None;
       maxPrice := Some 1200000; minPrice := None |}
  = Store.SqlLive
      {| Store.preferences :=
           [ {| Store.user_id := "user-1"; Store.row_area := Some "JVC";
                Store.property_type := Some "villa";
                Store.row_bedrooms := Some "2";
                Store.max_price := Some 1200000; Store.min_price := None;
                Store.last_updated := 20 |} ];
         Store.search_logs :=
           [ Store.newLog 10 "search-1" "user-1"
               {| area := Some "JVC"; propertyType := None;
                  bedrooms := Some (BedStr "2"); maxPrice := Some 900000;
                  minPrice := None |};
             Store.newLog 20 "search-2" "user-1"
               {| area := None; propertyType := Some "villa"; bedrooms := None;
                  maxPrice := Some 1200000; minPrice := None |} ] |}.
Proof. vm_compute. reflexivity. Qed.

(** ** The handler *)

Section Turns.
Import Dialogue.

Lemma handler_after_showing (env : Env) (msg : Message) (w : World) :
  showingBranchTaken (conv w) (JsString.trim (msg_text msg)) = false ->
  handler env msg w = afterShowing env msg (JsString.trim (msg_text msg)) w.
Proof.
  unfold showingBranchTaken, handler, bind, readState.
  destruct (showingListingResults (conv w)); [|reflexivity].
  destruct (Regex.test showMorePattern _); [discriminate|].
  destruct (Regex.test narrowPattern _); [discriminate|].
  destruct (Regex.test savePattern _); [discriminate|reflexivity].
Qed.

(** C1. Two turns from the initial state leave both flags set: "2 bed in
    JVC" is answered with results and sets [showingListingResults]; the
    next message, "thanks", matches no pattern and reaches the default
    branch, which sets [awaitingPropertyCriteria] and, unlike the
    "narrow" branch, does not clear the other flag. *)
Theorem default_branch_sets_both_flags :
  Reachable (turn Scenario.online (Scenario.say "thanks") Scenario.browsing)
  /\ conv Scenario.browsing
     = {| awaitingPropertyCriteria := false; showingListingResults := true;
          lastSearchCriteria := Some (extractSearchCriteria "2 bed in JVC") |}
  /\ conv (turn Scenario.online (Scenario.say "thanks") Scenario.browsing)
     = {| awaitingPropertyCriteria := true; showingListingResults := true;
          lastSearchCriteria := Some (extractSearchCriteria "2 bed in JVC") |}.
Proof.
  split; [|split].
  - apply reach_turn. apply reach_turn. apply reach_start.
  - vm_compute. reflexivity.
  - vm_compute. reflexivity.
Qed.

(** Unfolds a turn down to its tests and calls. *)
Ltac run_handler :=
  unfold turn, handler, afterShowing, showMoreBranch, narrowBranch, saveBranch,
    awaitingBranch, savedBranch, fallbackBranch, defaultBranch, reply, bind,
    readState, setAwaiting, setShowing, setLastCriteria, writeState, callFetchAds,
    callSave, callUpdateLogCount, querySavedPreferences, record, ret.

(** Splits a turn on each test and on the outcome of each call. *)
Ltac split_run :=
  repeat match goal with
  | |- context [Ads.fetchAds ?p ?c] =>
      destruct (Ads.fetchAds p c) as [? [?|]]
  | |- context [if ?b then _ else _] => destruct b eqn:?
  | |- context [match ?a with Store.SqlAbsent => _ | _ => _ end] => destruct a
  | |- context [match Store.selectLatestPreference ?d ?u with _ => _ end] =>
      destruct (Store.selectLatestPreference d u)
  end.

(** Where the two flags come to hold together: a turn that starts with
    at most one flag set and ends with both started with results on
    display, ran none of the three branches that display guards, and
    ended in one of the replies that follow
    [awaitingPropertyCriteria = true]. Every other path keeps the flags
    exclusive. *)
Lemma both_flags_only_after_prompt (env : Env) (msg : Message) (w : World) :
  awaitingPropertyCriteria (conv w) && showingListingResults (conv w) = false ->
  awaitingPropertyCriteria (conv (turn env msg w)) = true ->
  showingListingResults (conv (turn env msg w)) = true ->
  showingListingResults (conv w) = true
  /\ showingBranchTaken (conv w) (JsString.trim (msg_text msg)) = false
  /\ exists r,
       fst (handler env msg w)
       = {| body := r; actions := ["SEARCH_LISTINGS"]; source := msg_source msg |}
       /\ (r = AskForCriteria \/ r = NoSavedPreferences \/ r = SavedPreferencesError).
Proof.
  unfold showingBranchTaken. run_handler.
  set (text := JsString.trim (msg_text msg)).
  destruct w as [[awaiting showing last] adapter evs].
  cbn [conv sql events awaitingPropertyCriteria showingListingResults
       lastSearchCriteria].
  destruct awaiting, showing; cbn [andb]; try discriminate.
  all: split_run.
  all: cbn [fst snd conv awaitingPropertyCriteria showingListingResults
            lastSearchCriteria orb andb].
  all: try discriminate.
  all: intros _ _ _; split; [reflexivity|]; split; [reflexivity|];
    eexists; split; [reflexivity|]; auto.
Qed.

(** In the fallback branch a failed fetch is followed by the default
    branch, which writes [awaitingPropertyCriteria]. *)
Lemma fallback_failed_fetch_changes_state :
  ~ failedFetchLeavesState Scenario.offline (Scenario.say "2 bed in JVC") Scenario.idle.
Proof.
  intros H.
  specialize (H {| awaitingPropertyCriteria := false; showingListingResults := false;
                   lastSearchCriteria := Some (extractSearchCriteria "2 bed in JVC") |}
                (extractSearchCriteria "2 bed in JVC")
                [[("area", Js.VStr "JVC"); ("bedrooms", Js.VNum 2)]]).
  assert (Hin : In (Fetched
                  {| awaitingPropertyCriteria := false; showingListingResults := false;
                     lastSearchCriteria := Some (extractSearchCriteria "2 bed in JVC") |}
                  (extractSearchCriteria "2 bed in JVC")
                  [[("area", Js.VStr "JVC"); ("bedrooms", Js.VNum 2)]] true)
                (events (turn Scenario.offline (Scenario.say "2 bed in JVC") Scenario.idle))).
  { vm_compute. left. reflexivity. }
  specialize (H Hin). vm_compute in H. discriminate H.
Qed.

(** C3. When the fetch throws in the branch for awaited criteria or in
    the fallback branch, [showingListingResults] is not written and the
    adapter is not used. In the first the turn ends there, in the state
    the fetch was called in, with the apology; in the second the handler
    goes on to the default branch, which sets
    [awaitingPropertyCriteria] and replies with the prompt for
    criteria. *)
Theorem failed_fetch_by_branch (env : Env) (msg : Message) (w : World) :
  let text := JsString.trim (msg_text msg) in
  let c := extractSearchCriteria text in
  let atFetch :=
    {| awaitingPropertyCriteria := false;
       showingListingResults := showingListingResults (conv w);
       lastSearchCriteria := Some c |} in
  let fetched := Fetched atFetch c (fst (Ads.fetchAds (provider env) c)) true in
  let said r :=
    Replied {| body := r; actions := ["SEARCH_LISTINGS"]; source := msg_source msg |} in
  showingBranchTaken (conv w) text = false ->
  snd (Ads.fetchAds (provider env) c) = Thrown ->
  (awaitingPropertyCriteria (conv w) = true ->
   turn env msg w
   = {| conv := atFetch; sql := sql w;
        events := (events w ++ [fetched; said SearchError])%list |})
  /\ (awaitingPropertyCriteria (conv w) = false ->
      Regex.test savedSearchPattern text || Regex.test newListingsPattern text = false ->
      enoughDetail c = true ->
      turn env msg w
      = {| conv := {| awaitingPropertyCriteria := true;
                      showingListingResults := showingListingResults (conv w);
                      lastSearchCriteria := Some c |};
           sql := sql w;
           events := (events w ++ [fetched; said AskForCriteria])%list |}).
Proof.
  intros text c atFetch fetched said Hshow Hthrow.
  unfold turn. rewrite (handler_after_showing env msg w Hshow).
  fold text. unfold afterShowing, bind, readState.
  subst fetched. destruct (Ads.fetchAds (provider env) c) as [requests out] eqn:Hfetch.
  cbn [fst snd] in *. subst out.
  split.
  - intros Hawait. rewrite Hawait.
    unfold awaitingBranch, bind, setAwaiting, setLastCriteria, writeState,
      callFetchAds, reply, record, ret. fold c. rewrite Hfetch.
    cbn. rewrite <- app_assoc. reflexivity.
  - intros Hawait Hsaved Henough. rewrite Hawait, Hsaved.
    unfold fallbackBranch. fold c. rewrite Henough.
    unfold bind, setLastCriteria, writeState, callFetchAds, defaultBranch,
      setAwaiting, writeState, bind, reply, record, ret. rewrite Hfetch.
    cbn. rewrite Hawait, <- app_assoc. reflexivity.
Qed.

Lemma failed_fetch_by_branch_witness :
  turn Scenario.offline (Scenario.say "  2 bed in JVC ") Scenario.idle
  = {| conv := {| awaitingPropertyCriteria := true;
                  showingListingResults := false;
                  lastSearchCriteria := Some (extractSearchCriteria "2 bed in JVC") |};
       sql := Store.SqlAbsent;
       events :=
         [ Fetched {| awaitingPropertyCriteria := false;
                      showingListingResults := false;
                      lastSearchCriteria := Some (extractSearchCriteria "2 bed in JVC") |}
                   (extractSearchCriteria "2 bed in JVC")
                   [[("area", Js.VStr "JVC"); ("bedrooms", Js.VNum 2)]] true;
           Replied {| body := AskForCriteria; actions := ["SEARCH_LISTINGS"];
                      source := "discord" |} ] |}.
Proof.
  apply (failed_fetch_by_branch Scenario.offline (Scenario.say "  2 bed in JVC ")
           Scenario.idle); reflexivity.
Defined.

(** "save this filter" matches the save pattern, and the narrow pattern
    too, which is tested first: the turn refines instead of saving. *)
Lemma save_message_taken_as_narrow : ~ saveKeepsState.
Proof.
  intros H.
  specialize (H Scenario.online (Scenario.say "save this filter") Scenario.browsing
                eq_refl eq_refl).
  vm_compute in H. discriminate H.
Qed.

(** C7. While results are shown and the message does not match the
    "show more" pattern: a message that matches the narrow pattern clears
    [showingListingResults], sets [awaitingPropertyCriteria] and changes
    nothing else; a message that matches the save pattern and not the
    narrow one passes the last criteria (or the empty criteria when there
    are none) to [saveSearchPreferences], confirms, and leaves both flags
    and the last criteria as they were. *)
Theorem showing_results_narrow_and_save (env : Env) (msg : Message) (w : World) :
  let text := JsString.trim (msg_text msg) in
  let said r :=
    Replied {| body := r; actions := ["SEARCH_LISTINGS"]; source := msg_source msg |} in
  showingListingResults (conv w) = true ->
  Regex.test showMorePattern text = false ->
  (Regex.test narrowPattern text = true ->
   turn env msg w
   = {| conv := {| awaitingPropertyCriteria := true;
                   showingListingResults := false;
                   lastSearchCriteria := lastSearchCriteria (conv w) |};
        sql := sql w;
        events := (events w ++ [said RefinePrompt])%list |})
  /\ (Regex.test narrowPattern text = false ->
      Regex.test savePattern text = true ->
      let saved := lastOrEmpty (conv w) in
      turn env msg w
      = {| conv := conv w;
           sql := Store.saveSearchPreferences (sql w) (now env) (searchId env)
                    (msg_id msg) saved;
           events := (events w ++ [Saved (msg_id msg) saved;
                                   said (PreferencesSaved saved)])%list |}
      /\ showingListingResults (conv (turn env msg w)) = true).
Proof.
  intros text said Hshowing Hmore.
  unfold turn, handler, bind, readState. fold text. rewrite Hshowing, Hmore.
  split.
  - intros Hnarrow. rewrite Hnarrow.
    unfold narrowBranch, bind, setShowing, setAwaiting, writeState, reply, record, ret.
    reflexivity.
  - intros Hnarrow Hsave. rewrite Hnarrow, Hsave.
    unfold saveBranch, bind, readState, callSave, reply, record, ret.
    cbn. rewrite <- app_assoc. split; [reflexivity|exact Hshowing].
Qed.

Lemma showing_results_narrow_and_save_witness :
  turn Scenario.online (Scenario.say "save these criteria") Scenario.browsing
  = {| conv := conv Scenario.browsing;
       sql := Store.saveSearchPreferences (sql Scenario.browsing) 1 "search-1"
                "user-1" (lastOrEmpty (conv Scenario.browsing));
       events := (events Scenario.browsing
                    ++ [Saved "user-1" (lastOrEmpty (conv Scenario.browsing));
                        Replied {| body := PreferencesSaved
                                             (lastOrEmpty (conv Scenario.browsing));
                                   actions := ["SEARCH_LISTINGS"];
                                   source := "discord" |}])%list |}
  /\ showingListingResults
       (conv (turn Scenario.online (Scenario.say "save these criteria")
                Scenario.browsing)) = true.
Proof.
  apply (showing_results_narrow_and_save Scenario.online
           (Scenario.say "save these criteria") Scenario.browsing); reflexivity.
Defined.

End Turns.

(** * Further properties *)

(** ** The gazetteer *)

Section Gazetteer.

Lemma includes_append_absent (t pre a : string) :
  JsString.includes t a = false -> JsString.includes t (pre ++ a) = false.
Proof.
  intros H. destruct (JsString.includes t (pre ++ a)) eqn:E; [|reflexivity].
  apply includes_append_right in E. congruence.
Qed.

Lemma findArea_app (l1 l2 : list string) (text : string) :
  findArea (l1 ++ l2) text =
  match findArea l1 text with
  | Some a => Some a
  | None => findArea l2 text
  end.
Proof.
  induction l1 as [|a l1 IH]; cbn [findArea app]; [reflexivity|].
  destruct (JsString.includes _ _); [reflexivity|exact IH].
Qed.

Lemma findArea_none (l : list string) (text : string) :
  findArea l text = None <-> Forall (fun a => mentions text a = false) l.
Proof.
  unfold mentions. induction l as [|a l IH]; cbn [findArea].
  - split; [constructor|reflexivity].
  - destruct (JsString.includes _ _) eqn:E; split; intros H.
    + discriminate.
    + inversion H; subst. congruence.
    + constructor; [exact E|apply IH, H].
    + inversion H; subst. apply IH. assumption.
Qed.

(** X1. The area found is the first name of the list that the text
    mentions: it is split off the list by names the text does not
    mention, and the text mentions it. *)
Theorem findArea_first (l : list string) (text a : string) :
  findArea l text = Some a ->
  exists before after,
    l = (before ++ a :: after)%list
    /\ Forall (fun b => mentions text b = false) before
    /\ mentions text a = true.
Proof.
  unfold mentions. induction l as [|b l IH]; cbn [findArea]; [discriminate|].
  destruct (JsString.includes _ (JsString.toLowerCase b)) eqn:E.
  - intros [= <-]. exists [], l. repeat split; [constructor|exact E].
  - intros H. destruct (IH H) as (before & after & -> & Hb & Ha).
    exists (b :: before), after. repeat split; [constructor; assumption|exact Ha].
Qed.

Lemma findArea_in (l : list string) (text a : string) :
  findArea l text = Some a -> In a l.
Proof.
  induction l as [|b l IH]; cbn [findArea]; [discriminate|].
  destruct (JsString.includes _ _).
  - intros [= <-]. left. reflexivity.
  - intros H. right. apply IH, H.
Qed.

(** A name listed after a name it contains is never found, unless it is
    listed a second time. *)
Lemma findArea_shadowed (before after : list string) (a b pre text : string) :
  JsString.toLowerCase b = pre ++ JsString.toLowerCase a ->
  ~ In b before -> a <> b -> ~ In b after ->
  findArea (before ++ a :: b :: after) text <> Some b.
Proof.
  intros Hlow Hbefore Hab Hafter H.
  rewrite findArea_app in H.
  destruct (findArea before text) as [x|] eqn:E.
  - injection H as ->. apply findArea_in in E. contradiction.
  - cbn [findArea] in H.
    destruct (JsString.includes _ (JsString.toLowerCase a)) eqn:Ea.
    + congruence.
    + rewrite Hlow, (includes_append_absent _ pre _ Ea) in H.
      apply findArea_in in H. contradiction.
Qed.

(** X2. No text makes the extractor answer "Al Barsha": the list has
    "Barsha" just before it, and a text that mentions "Al Barsha"
    mentions "Barsha". *)
Theorem extract_never_Al_Barsha (text : string) :
  area (extractSearchCriteria text) <> Some "Al Barsha".
Proof.
  cbn [extractSearchCriteria area].
  change areaPatterns with
    ([ "Downtown"; "Dubai Marina"; "JBR"; "Palm Jumeirah"; "Business Bay";
       "JVC"; "JVT"; "Jumeirah Village"; "DIFC"; "International City";
       "Sports City"; "Motor City"; "Arabian Ranches"; "Mirdif" ]
     ++ "Barsha" :: "Al Barsha"
     :: [ "Dubai Hills"; "MBR City"; "Dubai South"; "Dubailand";
          "Dubai Creek"; "Zabeel"; "Deira"; "Bur Dubai"; "Jumeirah"; "Umm Suqeim";
          "Discovery Gardens"; "Gardens"; "Jebel Ali"; "Dubai Production City";
          "IMPZ"; "Dubai Silicon Oasis"; "DSO"; "Al Furjan"; "The Greens" ])%list.
  apply (findArea_shadowed _ _ "Barsha" "Al Barsha" "al ").
  - reflexivity.
  - cbn. intuition discriminate.
  - discriminate.
  - cbn. intuition discriminate.
Qed.

Lemma findArea_first_witness :
  exists before after,
    areaPatterns = (before ++ "Jumeirah Village" :: after)%list
    /\ Forall (fun b => mentions "villa in JUMEIRAH village circle" b = false) before
    /\ mentions "villa in JUMEIRAH village circle" "Jumeirah Village" = true.
Proof.
  apply (findArea_first areaPatterns "villa in JUMEIRAH village circle").
  vm_compute. reflexivity.
Defined.

End Gazetteer.

(** ** fetchAds: responses *)

Section FetchAdsResponses.
Import Js Ads.

Lemma fetchAds_at_most_one (provider : Provider) (c : SearchCriteria) :
  (List.length (fst (fetchAds provider c)) <= 1)%nat.
Proof. rewrite fetchAds_requests. destruct (buildPayload c); cbn; lia. Qed.

(** X3. [fetchAds] is single-shot: it never sends more than one request,
    and when the payload is not empty and the request is rejected, is
    answered with a status outside 2xx, or is answered with a body that is
    not JSON, it throws after that one request. *)
Theorem fetchAds_single_shot (provider : Provider) (c : SearchCriteria) :
  (List.length (fst (fetchAds provider c)) <= 1)%nat
  /\ (buildPayload c <> [] ->
      (provider (buildPayload c) = NetworkError
       \/ (exists status body,
             provider (buildPayload c) = Response status body
             /\ (ok status = false \/ body = None))) ->
      fetchAds provider c = ([buildPayload c], Thrown)).
Proof.
  split.
  - apply fetchAds_at_most_one.
  - intros Hne Hfail. unfold fetchAds.
    destruct (buildPayload c) as [|kv payload] eqn:E; [congruence|].
    cbn [obj_keys map List.length Nat.eqb].
    destruct Hfail as [->|(status & body & -> & [Hok| ->])]; [reflexivity| |].
    + rewrite Hok. reflexivity.
    + destruct (negb (ok status)); reflexivity.
Qed.

Lemma fetchAds_single_shot_witness :
  fetchAds (fun _ => Response 502 (Some (VArr [])))
    {| area := Some "JVC"; propertyType := None; bedrooms := None;
       maxPrice := None; minPrice := None |}
  = ([[("area", VStr "JVC")]], Thrown).
Proof.
  apply (fetchAds_single_shot (fun _ => Response 502 (Some (VArr [])))
           {| area := Some "JVC"; propertyType := None; bedrooms := None;
              maxPrice := None; minPrice := None |}).
  - discriminate.
  - right. exists 502, (Some (VArr [])). split; [reflexivity|left; reflexivity].
Defined.

(** X4. The listing array is found the same way whether the response
    is the array itself, an object holding it under [listings], or an
    object holding under [data] an object that holds it under [listings]
    (when its own [listings] is missing or not an array, and whatever
    other keys the objects carry): [fetchAds] returns the same listings
    in the three cases. *)
Theorem fetchAds_response_shapes (c : SearchCriteria) (status : Z)
        (raw : list JsValue) (o1 o2 d : Obj) :
  obj_get o1 "listings" = Some (VArr raw) ->
  match obj_get o2 "listings" with Some (VArr _) => False | _ => True end ->
  obj_get o2 "data" = Some (VObj d) ->
  obj_get d "listings" = Some (VArr raw) ->
  fetchAds (fun _ => Response status (Some (VObj o1))) c
  = fetchAds (fun _ => Response status (Some (VArr raw))) c
  /\ fetchAds (fun _ => Response status (Some (VObj o2))) c
     = fetchAds (fun _ => Response status (Some (VArr raw))) c.
Proof.
  intros H1 H2 Hdata Hd.
  assert (E1 : findListings (VObj o1) = findListings (VArr raw)).
  { unfold findListings, prop. rewrite H1. reflexivity. }
  assert (E2 : findListings (VObj o2) = findListings (VArr raw)).
  { unfold findListings, prop. rewrite Hdata. cbn [truthy]. rewrite Hd.
    destruct (obj_get o2 "listings") as [[]|]; try reflexivity; contradiction. }
  unfold fetchAds. rewrite E1, E2. split; reflexivity.
Qed.

Lemma fetchAds_response_shapes_witness :
  fetchAds (fun _ => Response 200 (Some (VObj
              [("count", VNum 1);
               ("listings", VArr [VObj [("title", VStr "A"); ("link", VStr "u")]])])))
    {| area := Some "JVC"; propertyType := None; bedrooms := None;
       maxPrice := None; minPrice := None |}
  = fetchAds (fun _ => Response 200 (Some
              (VArr [VObj [("title", VStr "A"); ("link", VStr "u")]])))
      {| area := Some "JVC"; propertyType := None; bedrooms := None;
         maxPrice := None; minPrice := None |}.
Proof.
  apply (fetchAds_response_shapes
           {| area := Some "JVC"; propertyType := None; bedrooms := None;
              maxPrice := None; minPrice := None |} 200
           [VObj [("title", VStr "A"); ("link", VStr "u")]]
           [("count", VNum 1);
            ("listings", VArr [VObj [("title", VStr "A"); ("link", VStr "u")]])]
           [("listings", VNull);
            ("data", VObj [("listings",
                            VArr [VObj [("title", VStr "A"); ("link", VStr "u")]])])]
           [("listings", VArr [VObj [("title", VStr "A"); ("link", VStr "u")]])]);
    try reflexivity; exact I.
Defined.

(** X5. A 2xx response in none of the three shapes is not an error: an
    object without an array under [listings] and without an object under
    [data] that has one gives the empty sequence of listings. *)
Theorem fetchAds_unrecognised_shape (provider : Provider) (c : SearchCriteria)
        (status : Z) (o : Obj) :
  buildPayload c <> [] ->
  provider (buildPayload c) = Response status (Some (VObj o)) ->
  ok status = true ->
  match obj_get o "listings" with Some (VArr _) => False | _ => True end ->
  match obj_get o "data" with
  | Some (VObj d) =>
      match obj_get d "listings" with Some (VArr _) => False | _ => True end
  | Some (VArr _) | Some (VStr _) | Some (VNum _) | Some (VBool _)
  | Some (VMethod _) | Some VNull | Some VUndefined | None => True
  end ->
  fetchAds provider c = ([buildPayload c], Returned []).
Proof.
  intros Hne Hresp Hok Hl Hd. unfold fetchAds.
  destruct (buildPayload c) as [|kv payload] eqn:E; [congruence|].
  cbn [obj_keys map List.length Nat.eqb]. rewrite Hresp, Hok. cbn [negb].
  assert (Ef : findListings (VObj o) = Returned None).
  { unfold findListings, prop.
    destruct (obj_get o "listings") as [[]|]; try contradiction;
      destruct (obj_get o "data") as [[| | db | dn | ds | dl | d | dm]|]; cbn [truthy];
      try reflexivity;
      repeat match goal with
      | |- context [if ?b then _ else _] => destruct b
      | |- context [match obj_get d "listings" with _ => _ end] =>
          destruct (obj_get d "listings") as [[]|]
      end; try reflexivity; try contradiction. }
  rewrite Ef. reflexivity.
Qed.

Lemma fetchAds_unrecognised_shape_witness :
  fetchAds (fun _ => Response 200 (Some (VObj [("error", VStr "quota");
                                                ("data", VArr [])])))
    {| area := Some "JVC"; propertyType := None; bedrooms := None;
       maxPrice := None; minPrice := None |}
  = ([[("area", VStr "JVC")]], Returned []).
Proof.
  apply (fetchAds_unrecognised_shape
           (fun _ => Response 200 (Some (VObj [("error", VStr "quota");
                                                ("data", VArr [])])))
           {| area := Some "JVC"; propertyType := None; bedrooms := None;
              maxPrice := None; minPrice := None |}
           200 [("error", VStr "quota"); ("data", VArr [])]);
    try reflexivity; try exact I.
  discriminate.
Defined.

End FetchAdsResponses.

(** ** fetchPropertyDetails: the result *)

Section DetailResult.
Import Js Details.

Variable server : Server.
Variable link : string.

(** The first attempt that does not fail ends the loop with its body. *)
Lemma first_answer_returned (k status : Z) (data : JsValue) :
  1 <= k <= 3 ->
  (forall j, 1 <= j < k -> attemptFails (server j) = true) ->
  server k = Status status (Some data) -> Ads.ok status = true ->
  snd (fetchPropertyDetails server link) = Some data.
Proof.
  intros Hk Hprev Hk2 Hok.
  assert (Fk : attemptFails (server k) = false).
  { rewrite Hk2. cbn. rewrite Hok. reflexivity. }
  assert (Hk3 : k = 1 \/ k = 2 \/ k = 3) by lia.
  destruct (fetchPropertyDetails_cases server link)
    as [(F1 & st & d & E & ->) | [(F1 & F2 & st & d & E & ->)
        | [(F1 & F2 & F3 & st & d & E & ->) | (F1 & F2 & F3 & ->)]]];
    cbn [snd];
    destruct Hk3 as [-> | [-> | ->]];
    try congruence;
    try (rewrite (Hprev 1) in F1 by lia; discriminate);
    try (rewrite (Hprev 2) in F2 by lia; discriminate).
Qed.

(** X6. The value [fetchPropertyDetails] resolves to is [null] in two
    cases and no other: each of the three attempts fails, or the first
    attempt that does not fail carries the JSON body [null]; the caller
    cannot tell the two apart. Otherwise the value is the parsed body of
    the first attempt that does not fail, whose status may be any 2xx.
    The function always sends at least one request, and the waits add up
    to at most 3000 ms. *)
Theorem fetchPropertyDetails_result :
  (resolvedValue (snd (fetchPropertyDetails server link)) = VNull <->
   (attemptFails (server 1) = true /\ attemptFails (server 2) = true
    /\ attemptFails (server 3) = true)
   \/ exists k status,
        1 <= k <= 3
        /\ (forall j, 1 <= j < k -> attemptFails (server j) = true)
        /\ server k = Status status (Some VNull) /\ Ads.ok status = true)
  /\ (forall k status data,
        1 <= k <= 3 ->
        (forall j, 1 <= j < k -> attemptFails (server j) = true) ->
        server k = Status status (Some data) -> Ads.ok status = true ->
        snd (fetchPropertyDetails server link) = Some data
        /\ resolvedValue (snd (fetchPropertyDetails server link)) = data)
  /\ (1 <= requestCount (fst (fetchPropertyDetails server link)))%nat
  /\ 0 <= totalWait (fst (fetchPropertyDetails server link)) <= 3000.
Proof.
  split; [|split; [|split]].
  - split.
    + intros Hnull.
      assert (Hok : forall k st d, server k = Status st (Some d) ->
                attemptFails (server k) = false -> Ads.ok st = true).
      { intros k st d E F. rewrite E in F. cbn in F.
        rewrite orb_false_r in F. apply negb_false_iff, F. }
      destruct (fetchPropertyDetails_cases server link)
        as [(F1 & st & d & E & H) | [(F1 & F2 & st & d & E & H)
            | [(F1 & F2 & F3 & st & d & E & H) | (F1 & F2 & F3 & H)]]];
        rewrite H in Hnull; cbn [snd resolvedValue] in Hnull.
      * right. exists 1, st. subst d. repeat split; try lia; eauto.
      * right. exists 2, st. subst d. repeat split; try lia; eauto.
        intros j Hj. assert (j = 1) as -> by lia. exact F1.
      * right. exists 3, st. subst d. repeat split; try lia; eauto.
        intros j Hj. assert (j = 1 \/ j = 2) as [-> | ->] by lia; assumption.
      * left. auto.
    + intros [(F1 & F2 & F3) | (k & st & Hk & Hprev & E & Hok)].
      * destruct (fetchPropertyDetails_cases server link)
          as [(G1 & _) | [(_ & G2 & _) | [(_ & _ & G3 & _) | (_ & _ & _ & ->)]]];
          try congruence.
        reflexivity.
      * rewrite (first_answer_returned k st VNull Hk Hprev E Hok). reflexivity.
  - intros k st d Hk Hprev E Hok.
    rewrite (first_answer_returned k st d Hk Hprev E Hok). split; reflexivity.
  - destruct (fetchPropertyDetails_cases server link)
      as [(_ & st & d & _ & ->) | [(_ & _ & st & d & _ & ->)
          | [(_ & _ & _ & st & d & _ & ->) | (_ & _ & _ & ->)]]]; cbn; lia.
  - destruct (fetchPropertyDetails_cases server link)
      as [(_ & st & d & _ & ->) | [(_ & _ & st & d & _ & ->)
          | [(_ & _ & _ & st & d & _ & ->) | (_ & _ & _ & ->)]]]; cbn; lia.
Qed.

End DetailResult.

Lemma fetchPropertyDetails_result_witness :
  resolvedValue
    (snd (Details.fetchPropertyDetails
            (fun attempt => if attempt =? 2 then Details.Status 201 (Some Js.VNull)
                            else Details.Status 500 None)
            "https://www.propertyfinder.ae/x"))
  = Js.VNull.
Proof.
  apply (fetchPropertyDetails_result
           (fun attempt => if attempt =? 2 then Details.Status 201 (Some Js.VNull)
                           else Details.Status 500 None)
           "https://www.propertyfinder.ae/x").
  right. exists 2, 201. split; [lia|]. split; [|split; reflexivity].
  intros j Hj. assert (j = 1) as -> by lia. reflexivity.
Defined.

(** ** The preference store: invariants and round trips *)

Section StoreLaws.
Import Store.

Variables (now : Z) (searchId userId : string) (c : SearchCriteria).
Hypothesis userId_given : userId <> "".

Lemma newRow_as_update :
  newRow now userId c = updateRow now c (blankRow userId).
Proof.
  unfold newRow, updateRow, blankRow, coalesce; cbn.
  destruct (strOrNull (area c)), (strOrNull (propertyType c)),
    (bedroomsOrNull (bedrooms c)), (numOrNull (maxPrice c)),
    (numOrNull (minPrice c)); reflexivity.
Qed.

(** The two forms the table takes after a save. *)
Lemma save_table (db : Db) :
  exists db',
    saveSearchPreferences (SqlLive db) now searchId userId c = SqlLive db'
    /\ search_logs db' = insertLog (newLog now searchId userId c) (search_logs db)
    /\ ((selectByUser db userId <> []
         /\ preferences db' = updatePreferences now userId c (preferences db))
        \/ (selectByUser db userId = []
            /\ preferences db' = (preferences db ++ [newRow now userId c])%list)).
Proof.
  unfold saveSearchPreferences. rewrite (userId_truthy userId userId_given).
  cbn [negb]. eexists. split; [reflexivity|]. cbn [search_logs preferences].
  split; [reflexivity|].
  destruct (selectByUser db userId) as [|r0 rest]; cbn [List.length Nat.ltb Nat.leb].
  - right. split; reflexivity.
  - left. split; [discriminate|reflexivity].
Qed.

Lemma selectByUser_absent (db : Db) (r : PreferenceRow) :
  selectByUser db userId = [] -> In r (preferences db) -> user_id r <> userId.
Proof.
  intros Hnone Hin Heq.
  assert (Hne : selectByUser db userId <> [])
    by (apply selectByUser_nonempty; eauto).
  contradiction.
Qed.

(** Every row of the user after a save is a row overwritten by the
    criteria. *)
Lemma saved_rows (db db' : Db) (r : PreferenceRow) :
  saveSearchPreferences (SqlLive db) now searchId userId c = SqlLive db' ->
  In r (preferences db') -> user_id r = userId ->
  exists r0, r = updateRow now c r0.
Proof.
  intros Hsave Hin Huser.
  destruct (save_table db) as (db1 & Hsave1 & _ & Hform).
  rewrite Hsave in Hsave1. injection Hsave1 as <-.
  destruct Hform as [[_ Hp]|[Hnone Hp]]; rewrite Hp in Hin.
  - unfold updatePreferences in Hin. apply in_map_iff in Hin as (r0 & Hr & _).
    destruct (String.eqb (user_id r0) userId) eqn:E.
    + eauto.
    + apply String.eqb_neq in E. subst r. contradiction.
  - apply in_app_or in Hin as [Hin|[<-|[]]].
    + exfalso. eapply selectByUser_absent; eauto.
    + exists (blankRow userId). apply newRow_as_update.
Qed.

Lemma filter_map_length {A} (p : A -> bool) (f : A -> A) (l : list A) :
  (forall x, p (f x) = p x) ->
  List.length (filter p (map f l)) = List.length (filter p l).
Proof.
  intros Hpf. induction l as [|x l IH]; cbn; [reflexivity|].
  rewrite Hpf. destruct (p x); cbn; rewrite IH; reflexivity.
Qed.

(** X7. A save keeps the table at one row per user at most: if no user
    has two rows before, none has after. *)
Theorem save_keeps_one_row_per_user (db : Db) :
  OneRowPerUser db ->
  exists db',
    saveSearchPreferences (SqlLive db) now searchId userId c = SqlLive db'
    /\ OneRowPerUser db'
    /\ List.length (selectByUser db' userId) = 1%nat.
Proof.
  intros Hone. destruct (save_table db) as (db' & Hsave & _ & Hform).
  exists db'. split; [exact Hsave|].
  assert (Hlen : forall u, List.length (selectByUser db' u)
            = if String.eqb u userId
              then Nat.max 1 (List.length (selectByUser db u))
              else List.length (selectByUser db u)).
  { intros u. unfold selectByUser.
    destruct Hform as [[Hsome ->]|[Hnone ->]].
    - unfold updatePreferences. rewrite filter_map_length.
      + destruct (String.eqb u userId) eqn:E; [|reflexivity].
        apply String.eqb_eq in E. subst u.
        unfold selectByUser in Hsome.
        destruct (filter _ (preferences db)); [congruence|cbn; lia].
      + intros x. destruct (String.eqb (user_id x) userId); reflexivity.
    - rewrite filter_app, length_app. cbn [filter newRow user_id].
      rewrite (String.eqb_sym userId u).
      destruct (String.eqb u userId) eqn:E; cbn [List.length].
      + apply String.eqb_eq in E. subst u.
        unfold selectByUser in Hnone. rewrite Hnone. reflexivity.
      + lia. }
  split.
  - intros u. rewrite Hlen. specialize (Hone u).
    destruct (String.eqb u userId); lia.
  - rewrite Hlen, String.eqb_refl. specialize (Hone userId). lia.
Qed.

(** X8. What is saved can be read back: after a save the query of the
    "saved search" branch finds a row of the user, stamped with the
    time of the save, and the criteria built from it hold every field the
    saved criteria gave. *)
Theorem save_then_load (db : Db) :
  exists db' r,
    saveSearchPreferences (SqlLive db) now searchId userId c = SqlLive db'
    /\ selectLatestPreference db' userId = Some r
    /\ user_id r = userId
    /\ last_updated r = now
    /\ ReadsBack c (Dialogue.criteriaFromDb r).
Proof.
  destruct (save_leaves_row now searchId userId c userId_given db)
    as (db' & Hsave & Hrow).
  assert (Hlatest : exists r, selectLatestPreference db' userId = Some r
                              /\ In r (selectByUser db' userId)).
  { unfold selectLatestPreference.
    destruct (selectByUser db' userId) as [|r0 rest]; [congruence|].
    clear. revert r0. induction rest as [|x rest IH]; intros r0.
    - exists r0. split; [reflexivity|left; reflexivity].
    - cbn [latest]. destruct (IH x) as (r & Hr & Hin). cbn [latest] in Hr.
      rewrite Hr. destruct (last_updated r0 <? last_updated r).
      + exists r. split; [reflexivity|right; exact Hin].
      + exists r0. split; [reflexivity|left; reflexivity]. }
  destruct Hlatest as (r & Hr & Hin).
  apply filter_In in Hin as [Hin Huser]. apply String.eqb_eq in Huser.
  destruct (saved_rows db db' r Hsave Hin Huser) as (r0 & ->).
  exists db', (updateRow now c r0). split; [exact Hsave|]. split; [exact Hr|].
  split; [exact Huser|]. split; [reflexivity|].
  destruct (updateRow_overwrites now c r0)
    as (_ & _ & (_ & Harea & _) & (_ & Htype & _) & (_ & Hbs & Hbn & _)
        & (_ & Hmax & _) & (_ & Hmin & _)).
  unfold ReadsBack, Dialogue.criteriaFromDb; cbn [area propertyType bedrooms maxPrice minPrice].
  repeat split.
  - exact Harea.
  - exact Htype.
  - intros s Hs Hne. rewrite (Hbs s Hs Hne). reflexivity.
  - intros n Hn. rewrite (Hbn n Hn). reflexivity.
  - intros p Hp Hne. rewrite (Hmax p Hp Hne). cbn.
    apply Z.eqb_neq in Hne. rewrite Hne. reflexivity.
  - intros p Hp Hne. rewrite (Hmin p Hp Hne). cbn.
    apply Z.eqb_neq in Hne. rewrite Hne. reflexivity.
Qed.

Lemma coalesce_twice {A} (p x : option A) :
  coalesce p (coalesce p x) = coalesce p x.
Proof. destruct p; reflexivity. Qed.

(** X9. Saving the same criteria again changes nothing in the table
    but the timestamp of the user's rows. *)
Theorem save_again_only_touches (db : Db) (now2 : Z) (searchId2 : string) :
  exists db1 db2,
    saveSearchPreferences (SqlLive db) now searchId userId c = SqlLive db1
    /\ saveSearchPreferences (SqlLive db1) now2 searchId2 userId c = SqlLive db2
    /\ preferences db2
       = map (fun r => if String.eqb (user_id r) userId then touched now2 r else r)
             (preferences db1).
Proof.
  destruct (save_leaves_row now searchId userId c userId_given db)
    as (db1 & Hsave1 & Hrow1).
  exists db1.
  unfold saveSearchPreferences at 2. rewrite (userId_truthy userId userId_given).
  cbn [negb].
  destruct (selectByUser db1 userId) as [|r0 rest] eqn:E; [congruence|].
  cbn [List.length Nat.ltb Nat.leb].
  eexists. split; [exact Hsave1|]. split; [reflexivity|]. cbn [preferences].
  unfold updatePreferences. apply map_ext_in. intros r Hin.
  destruct (String.eqb (user_id r) userId) eqn:Huser; [|reflexivity].
  apply String.eqb_eq in Huser.
  destruct (saved_rows db db1 r Hsave1 Hin Huser) as (r1 & ->).
  unfold updateRow, touched; cbn. rewrite !coalesce_twice. reflexivity.
Qed.

(** When the constraints of [search_logs] refuse a row. *)
Lemma logClash_spec (row : SearchLogRow) (logs : list SearchLogRow) :
  logClash row logs = true <->
  exists l, In l logs
    /\ (search_id l = search_id row
        \/ (log_user_id l = log_user_id row /\ timestamp l = timestamp row)).
Proof.
  unfold logClash. rewrite existsb_exists. split.
  - intros (l & Hin & H). exists l. split; [exact Hin|].
    apply orb_true_iff in H as [H|H].
    + left. apply String.eqb_eq, H.
    + right. apply andb_true_iff in H as [Hu Ht].
      split; [apply String.eqb_eq, Hu | apply Z.eqb_eq, Ht].
  - intros (l & Hin & [H|[Hu Ht]]); exists l; (split; [exact Hin|]).
    + apply orb_true_iff. left. apply String.eqb_eq, H.
    + apply orb_true_iff. right. apply andb_true_iff.
      split; [apply String.eqb_eq, Hu | apply Z.eqb_eq, Ht].
Qed.

Lemma insertLog_new (row : SearchLogRow) (logs : list SearchLogRow) :
  Forall (fun l => search_id l <> search_id row) logs ->
  Forall (fun l => log_user_id l = log_user_id row ->
                   timestamp l <> timestamp row) logs ->
  insertLog row logs = (logs ++ [row])%list.
Proof.
  intros Hid Hstamp. unfold insertLog.
  destruct (logClash row logs) eqn:E; [|reflexivity].
  apply logClash_spec in E as (l & Hin & H).
  rewrite Forall_forall in Hid, Hstamp.
  destruct H as [H|[Hu Ht]].
  - exfalso. exact (Hid l Hin H).
  - exfalso. exact (Hstamp l Hin Hu Ht).
Qed.



Lemma latest_last {A} (key : A -> Z) (l : list A) (y : A) :
  Forall (fun x => key x < key y) l -> latest key (l ++ [y]) = Some y.
Proof.
  induction 1 as [|x l Hx Hl IH]; cbn [app latest]; [reflexivity|].
  rewrite IH. apply Z.ltb_lt in Hx. rewrite Hx. reflexivity.
Qed.

Lemma setCountAt_last (target : SearchLogRow -> bool) (n : Z)
      (l : list SearchLogRow) (y : SearchLogRow) :
  Forall (fun x => target x = false) l -> target y = true ->
  setCountAt target n (l ++ [y])
  = (l ++ [ {| search_id := search_id y; log_user_id := log_user_id y;
               timestamp := timestamp y; criteria_json := criteria_json y;
               listings_returned := n |} ])%list.
Proof.
  intros Hl Hy. induction Hl as [|x l Hx Hl IH]; cbn [app setCountAt].
  - rewrite Hy. reflexivity.
  - rewrite Hx, IH. reflexivity.
Qed.

(** X11. When the clock has moved on since the user's earlier searches
    and the search id is not one already in the log, the count written
    after a save lands on the log row that save appended, and on no other
    row. *)
Theorem save_then_count (db : Db) (n : Z) :
  Forall (fun l => log_user_id l = userId -> timestamp l < now) (search_logs db) ->
  Forall (fun l => search_id l <> searchId) (search_logs db) ->
  exists db',
    saveSearchPreferences (SqlLive db) now searchId userId c = SqlLive db'
    /\ updateLogCount db' n userId
       = {| preferences := preferences db';
            search_logs :=
              (search_logs db
               ++ [ {| search_id := searchId; log_user_id := userId;
                       timestamp := now; criteria_json := c;
                       listings_returned := n |} ])%list |}.
Proof.
  intros Hclock Hnew. destruct (save_table db) as (db' & Hsave & Hlogs & _).
  exists db'. split; [exact Hsave|].
  rewrite insertLog_new in Hlogs.
  2: exact Hnew.
  2: { apply Forall_forall. intros l Hin Hu. rewrite Forall_forall in Hclock.
       specialize (Hclock l Hin Hu). cbn [newLog timestamp]. lia. }
  unfold updateLogCount. rewrite Hlogs, filter_app.
  cbn [filter newLog log_user_id]. rewrite String.eqb_refl.
  rewrite (latest_last timestamp).
  - cbn [timestamp]. rewrite setCountAt_last.
    + reflexivity.
    + apply Forall_forall. intros l Hin.
      rewrite Forall_forall in Hclock. specialize (Hclock l Hin).
      destruct (String.eqb (log_user_id l) userId) eqn:E; [|reflexivity].
      apply String.eqb_eq in E. specialize (Hclock E).
      cbn. apply Z.eqb_neq. lia.
    + cbn. rewrite String.eqb_refl, Z.eqb_refl. reflexivity.
  - apply Forall_forall. intros l Hin. apply filter_In in Hin as [Hin E].
    apply String.eqb_eq in E. rewrite Forall_forall in Hclock.
    cbn. apply Hclock; assumption.
Qed.

End StoreLaws.

(** ** The handler: every branch *)

Section EveryTurn.
Import Dialogue.

Ltac unfold_turn :=
  unfold turn, handler, afterShowing, showMoreBranch, narrowBranch, saveBranch,
    awaitingBranch, savedBranch, fallbackBranch, defaultBranch, reply, bind,
    readState, setAwaiting, setShowing, setLastCriteria, writeState, callFetchAds,
    callSave, callUpdateLogCount, querySavedPreferences, record, ret.

Ltac split_turn :=
  repeat match goal with
  | |- context [Ads.fetchAds ?p ?c] =>
      let H := fresh "Hshot" in
      pose proof (fetchAds_at_most_one p c) as H;
      destruct (Ads.fetchAds p c) as [? [?|]]; cbn [fst] in H
  | |- context [if ?b then _ else _] => destruct b eqn:?
  | |- context [match ?a with Store.SqlAbsent => _ | _ => _ end] => destruct a
  | |- context [match Store.selectLatestPreference ?d ?u with _ => _ end] =>
      destruct (Store.selectLatestPreference d u)
  end.

Ltac simpl_world :=
  cbn [fst snd conv sql events awaitingPropertyCriteria showingListingResults
       lastSearchCriteria].

(** X12. Every turn ends with exactly one reply, the one the handler
    returns, and sends at most one request to the listing provider; it
    calls [saveSearchPreferences] at most once. *)
Theorem turn_replies_once (env : Env) (msg : Message) (w : World) :
  exists new,
    events (turn env msg w) = (events w ++ new)%list
    /\ repliesIn new = [fst (handler env msg w)]
    /\ (List.length (requestsIn new) <= 1)%nat
    /\ (List.length (savesIn new) <= 1)%nat.
Proof.
  unfold_turn. destruct w as [[awaiting showing last] adapter evs]. simpl_world.
  split_turn; simpl_world; rewrite <- ?app_assoc; cbn [app];
    (eexists; split; [reflexivity|]);
    cbn [repliesIn requestsIn savesIn flat_map app List.length];
    rewrite ?app_nil_r; repeat split; try lia.
Qed.

(** X13. "Show more" changes neither the conversation state nor the
    store, whatever the provider answers; it searches with the last
    criteria. *)
Theorem show_more_changes_nothing (env : Env) (msg : Message) (w : World) :
  showingListingResults (conv w) = true ->
  Regex.test showMorePattern (JsString.trim (msg_text msg)) = true ->
  conv (turn env msg w) = conv w
  /\ sql (turn env msg w) = sql w
  /\ requestsIn (events (turn env msg w))
     = (requestsIn (events w)
        ++ fst (Ads.fetchAds (provider env) (lastOrEmpty (conv w))))%list.
Proof.
  intros Hshow Hmore. unfold turn, handler, bind, readState.
  rewrite Hshow, Hmore. unfold showMoreBranch, bind, readState, callFetchAds.
  destruct (Ads.fetchAds (provider env) (lastOrEmpty (conv w))) as [reqs [ads|]];
    [destruct (linesRender ads)|]; unfold reply, bind, record, ret; simpl_world;
    (split; [reflexivity|]; split; [reflexivity|]);
    unfold requestsIn; rewrite !flat_map_app; cbn [flat_map app];
    rewrite !app_nil_r; reflexivity.
Qed.

(** X14. Results stay on display until the user asks to narrow: a turn
    that starts with [showingListingResults] set and ends with it
    cleared took the "narrow" branch, and ends awaiting criteria. *)
Theorem showing_cleared_only_by_narrow (env : Env) (msg : Message) (w : World) :
  showingListingResults (conv w) = true ->
  showingListingResults (conv (turn env msg w)) = false ->
  Regex.test showMorePattern (JsString.trim (msg_text msg)) = false
  /\ Regex.test narrowPattern (JsString.trim (msg_text msg)) = true
  /\ awaitingPropertyCriteria (conv (turn env msg w)) = true
  /\ body (fst (handler env msg w)) = RefinePrompt.
Proof.
  unfold_turn. destruct w as [[awaiting showing last] adapter evs]. simpl_world.
  intros ->. split_turn; simpl_world; try discriminate; auto.
Qed.

(** One turn keeps [ShowingHasCriteria] and never forgets the last
    criteria. *)
Lemma turn_keeps_criteria (env : Env) (msg : Message) (w : World) :
  (ShowingHasCriteria (conv w) -> ShowingHasCriteria (conv (turn env msg w)))
  /\ (lastSearchCriteria (conv w) <> None ->
      lastSearchCriteria (conv (turn env msg w)) <> None).
Proof.
  unfold ShowingHasCriteria. unfold_turn.
  destruct w as [[awaiting showing last] adapter evs]. simpl_world.
  split_turn; simpl_world; split; intros; try discriminate; auto.
Qed.

(** X15. In every state a conversation can reach, results are on
    display only if criteria are stored: "show more" and "save" never
    work on missing criteria. *)
Theorem reachable_showing_has_criteria (w : World) :
  Reachable w -> ShowingHasCriteria (conv w).
Proof.
  induction 1 as [adapter|env msg w Hw IH].
  - intros H. discriminate H.
  - apply turn_keeps_criteria, IH.
Qed.

(** With nothing to send, [fetchAds] returns at once. *)
Lemma nothing_to_send_no_fetch (p : Ads.Provider) (c : SearchCriteria) :
  NothingToSend c -> Ads.fetchAds p c = ([], Returned []).
Proof.
  intros (Harea & Hbed & Hmax).
  assert (E : Ads.buildPayload c = []).
  { unfold Ads.buildPayload, optTruthyStr, optTruthyNum in *.
    destruct (area c) as [a|]; [rewrite Harea|];
      (destruct (maxPrice c) as [q|]; [rewrite Hmax|]);
      (destruct (bedrooms c) as [[b|n]|];
       [ destruct Hbed as [Hstudio Hparse]; apply String.eqb_neq in Hstudio;
         rewrite Hstudio, Hparse; destruct (JsString.truthy b)
       | subst n | ]); reflexivity. }
  unfold Ads.fetchAds. rewrite E. reflexivity.
Qed.

(** X16. While criteria are awaited, a message in which the extractor
    finds nothing to search by is answered with the no-match text without
    any request to the provider, and the conversation moves to showing
    results all the same, with the (unusable) criteria stored and
    saved. *)
Theorem awaiting_nothing_to_send (env : Env) (msg : Message) (w : World) :
  let text := JsString.trim (msg_text msg) in
  let c := extractSearchCriteria text in
  showingBranchTaken (conv w) text = false ->
  awaitingPropertyCriteria (conv w) = true ->
  NothingToSend c ->
  conv (turn env msg w)
  = {| awaitingPropertyCriteria := false; showingListingResults := true;
       lastSearchCriteria := Some c |}
  /\ body (fst (handler env msg w)) = SearchResults []
  /\ requestsIn (events (turn env msg w)) = requestsIn (events w)
  /\ savesIn (events (turn env msg w)) = (savesIn (events w) ++ [c])%list.
Proof.
  intros text c Hshow Hawait Hnothing.
  unfold turn. rewrite (handler_after_showing env msg w Hshow). fold text.
  unfold afterShowing, bind, readState. rewrite Hawait.
  unfold awaitingBranch, bind, setAwaiting, setLastCriteria, writeState,
    callFetchAds. fold c. simpl_world.
  rewrite (nothing_to_send_no_fetch (provider env) c Hnothing).
  unfold callSave, callUpdateLogCount, setShowing, writeState, reply, bind,
    record, ret. cbn [linesRender forallb]. simpl_world.
  repeat split.
  - unfold requestsIn. rewrite !flat_map_app. cbn. rewrite !app_nil_r. reflexivity.
  - unfold savesIn. rewrite !flat_map_app. cbn. rewrite !app_nil_r. reflexivity.
Qed.

End EveryTurn.

(** ** The matcher against the meaning of patterns *)

Section MatcherSound.
Import JsString Regex.

Lemma append_assoc (u v w : string) : (u ++ v) ++ w = u ++ (v ++ w).
Proof. induction u as [|x u IH]; cbn; [reflexivity|rewrite IH; reflexivity]. Qed.

Lemma append_empty_r (u : string) : u ++ "" = u.
Proof. induction u as [|x u IH]; cbn; [reflexivity|rewrite IH; reflexivity]. Qed.

Lemma length_append (u v : string) :
  String.length (u ++ v) = (String.length u + String.length v)%nat.
Proof. induction u as [|x u IH]; cbn; [reflexivity|rewrite IH; reflexivity]. Qed.

Lemma take_append (u v : string) :
  take (String.length (u ++ v) - String.length v) (u ++ v) = u.
Proof.
  rewrite length_append.
  replace (String.length u + String.length v - String.length v)%nat
    with (String.length u) by lia.
  induction u as [|x u IH]; cbn.
  - destruct v; reflexivity.
  - rewrite IH. reflexivity.
Qed.

Lemma take_append_eq (s u v : string) :
  s = u ++ v -> take (String.length s - String.length v) s = u.
Proof. intros ->. apply take_append. Qed.

Context {X : Type}.

Lemma star_loop_sound (r : regex) :
  @Sound X r ->
  forall n s g (k : @Cont X) x,
    star_loop (run r) k n s g = Some x ->
    exists u s' g', s = u ++ s' /\ Matches (Star r) u g g' /\ k s' g' = Some x.
Proof.
  intros Hr. induction n as [|n IH]; intros s g k x H; cbn [star_loop] in H.
  - exists "", s, g. repeat split; [constructor|exact H].
  - destruct (run r s g _) as [y|] eqn:E.
    + injection H as ->.
      apply Hr in E as (u & s1 & g1 & -> & Hu & Hk).
      destruct (String.length s1 <? String.length (u ++ s1))%nat; [|discriminate].
      apply IH in Hk as (v & s2 & g2 & -> & Hv & Hk).
      exists (u ++ v), s2, g2. rewrite append_assoc.
      repeat split; [econstructor; eassumption|exact Hk].
    + exists "", s, g. repeat split; [constructor|exact H].
Qed.

(** The matcher only succeeds on what the pattern means. *)
Lemma run_sound (r : regex) : @Sound X r.
Proof.
  induction r as [|c|p|r1 IH1 r2 IH2|r1 IH1 r2 IH2|r1 IH1|r1 IH1];
    intros s g k x H; cbn [run] in H.
  - exists "", s, g. repeat split; [constructor|exact H].
  - destruct s as [|y s']; [discriminate|].
    destruct (Ascii.eqb _ _) eqn:E; [|discriminate].
    apply Ascii.eqb_eq in E.
    exists (String y ""), s', g. repeat split; [constructor; exact E|exact H].
  - destruct s as [|y s']; [discriminate|].
    destruct (p y) eqn:E; [|discriminate].
    exists (String y ""), s', g. repeat split; [constructor; exact E|exact H].
  - apply IH1 in H as (u & s1 & g1 & -> & Hu & H).
    apply IH2 in H as (v & s2 & g2 & -> & Hv & H).
    exists (u ++ v), s2, g2. rewrite append_assoc.
    repeat split; [econstructor; eassumption|exact H].
  - destruct (run r1 s g k) as [y|] eqn:E.
    + injection H as ->. apply IH1 in E as (u & s1 & g1 & -> & Hu & H).
      exists u, s1, g1. repeat split; [apply M_AltL; exact Hu|exact H].
    + apply IH2 in H as (u & s1 & g1 & -> & Hu & H).
      exists u, s1, g1. repeat split; [apply M_AltR; exact Hu|exact H].
  - eapply star_loop_sound; eassumption.
  - apply IH1 in H as (u & s1 & g1 & -> & Hu & H).
    rewrite take_append in H.
    exists u, s1, (Some u). repeat split; [econstructor; exact Hu|exact H].
Qed.

End MatcherSound.

Section MatchArrays.
Import JsString Regex.

(** The array [match] returns is made of what the pattern means:
    index 0 is a piece of the text that the pattern matches, and index 1
    is the capture that match leaves (the empty string when it leaves
    none). *)
Theorem exec_sound (r : regex) (s : string) (m : MatchArray) :
  exec r s = Some m ->
  exists before after g,
    s = before ++ m0 m ++ after
    /\ Matches r (m0 m) None g
    /\ m1 m = match g with Some w => w | None => "" end.
Proof.
  assert (Hhere : forall t m',
            match_here r t = Some m' ->
            exists after g,
              t = m0 m' ++ after /\ Matches r (m0 m') None g
              /\ m1 m' = match g with Some w => w | None => "" end).
  { intros t m' E. unfold match_here in E.
    apply run_sound in E as (u & s' & g' & Hs & Hu & [= <-]).
    cbn [m0 m1]. rewrite (take_append_eq _ _ _ Hs).
    exists s', g'. repeat split; assumption. }
  induction s as [|x s IH]; cbn [exec];
    (destruct (match_here r _) as [m'|] eqn:E;
     [ intros [= <-]; destruct (Hhere _ _ E) as (after & g & Hs & Hm & Hg);
       exists "", after, g; repeat split; assumption | ]).
  - discriminate.
  - intros H. destruct (IH H) as (before & after & g & -> & Hm & Hg).
    exists (String x before), after, g. repeat split; assumption.
Qed.

End MatchArrays.

(** ** What the extractor captures *)

Section Captures.
Import JsString Regex.

Lemma groupless_passes (r : regex) (u : string) (g g' : option string) :
  Matches r u g g' -> groupless r = true -> g' = g.
Proof.
  induction 1; cbn [groupless]; intros Hg;
    try reflexivity; try discriminate;
    try (apply andb_true_iff in Hg as [Hg1 Hg2]).
  - rewrite IHMatches2, IHMatches1 by assumption. reflexivity.
  - auto.
  - auto.
  - rewrite IHMatches2, IHMatches1 by assumption. reflexivity.
Qed.

(** A pattern of a capturing shape leaves in the capture a text its
    group matches. *)
Lemma capturing_sound (r : regex) :
  forall b u g g',
    capturing r = Some b -> Matches r u g g' ->
    exists w gi go, g' = Some w /\ Matches b w gi go.
Proof.
  induction r as [|c|p|r1 IH1 r2 IH2|r1 IH1 r2 IH2|r1 IH1|r1 IH1];
    intros b u g g' Hc Hm; cbn [capturing] in Hc; try discriminate.
  - inversion Hm; subst.
    destruct (capturing r2) as [b2|] eqn:E2.
    + injection Hc as ->. eapply IH2; [reflexivity|eassumption].
    + destruct (groupless r2) eqn:G2; [|discriminate].
      match goal with
      | H2 : Matches r2 _ _ _ |- _ =>
          apply groupless_passes in H2; [subst|exact G2]
      end.
      eapply IH1; eassumption.
  - injection Hc as ->. inversion Hm; subst. eauto.
Qed.

Lemma star_class_chars (p : ascii -> bool) (u : string) (g g' : option string) :
  Matches (Star (Class p)) u g g' -> allChars p u = true.
Proof.
  remember (Star (Class p)) as r eqn:Hr. induction 1; try discriminate.
  - reflexivity.
  - injection Hr as ->. specialize (IHMatches2 eq_refl).
    match goal with H : Matches (Class p) _ _ _ |- _ => inversion H; subst end.
    cbn. rewrite IHMatches2.
    match goal with H : p _ = true |- _ => rewrite H end. reflexivity.
Qed.

(** [p+] matches a first character in [p] and then characters in [p]. *)
Lemma plus_class_chars (p : ascii -> bool) (u : string) (g g' : option string) :
  Matches (Plus (Class p)) u g g' ->
  exists x v, u = String x v /\ p x = true /\ allChars p v = true.
Proof.
  unfold Plus. intros H.
  inversion H as [| | |r1 r2 u1 u2 g0 g1 g2 H1 H2| | | | |]; subst.
  inversion H1; subst. apply star_class_chars in H2.
  cbn. eauto.
Qed.

(** A pattern that begins with [p+] matches a text that begins in [p]. *)
Lemma plus_class_first (p : ascii -> bool) (rest : regex) (u : string)
      (g g' : option string) :
  Matches (Cat (Plus (Class p)) rest) u g g' ->
  exists x v, u = String x v /\ p x = true.
Proof.
  intros H. inversion H as [| | |r1 r2 u1 u2 g0 g1 g2 H1 H2| | | | |]; subst.
  apply plus_class_chars in H1 as (x & v & -> & Hx & _).
  cbn. eauto.
Qed.

Lemma digit_not_sign (x : ascii) :
  is_digit x = true ->
  is_space x = false /\ x <> "-"%char /\ x <> "+"%char /\ x <> ","%char
  /\ lower_char x = x /\ 0 <= digit_val x.
Proof.
  destruct x as [[] [] [] [] [] [] [] []]; cbn; intros H;
    try discriminate H; repeat split; try discriminate; try lia.
Qed.

Lemma read_digits_grows (s : string) :
  forall acc n, 0 <= acc ->
    (n <= snd (fst (read_digits s acc n)))%nat
    /\ 0 <= fst (fst (read_digits s acc n)).
Proof.
  induction s as [|x s IH]; intros acc n Hacc; cbn [read_digits].
  - cbn. split; [lia|exact Hacc].
  - destruct (is_digit x) eqn:E.
    + destruct (digit_not_sign x E) as (_ & _ & _ & _ & _ & Hd).
      destruct (IH (acc * 10 + digit_val x) (S n)) as [Hn Hv]; [lia|].
      split; [lia|exact Hv].
    + cbn. split; [lia|exact Hacc].
Qed.

(** [parseInt] reads a number that is not negative from a text that
    begins with a digit. *)
Lemma parseInt_digit (x : ascii) (v : string) :
  is_digit x = true -> exists n, parseInt (String x v) = Some n /\ 0 <= n.
Proof.
  intros Hx. destruct (digit_not_sign x Hx) as (Hsp & Hminus & Hplus & _ & _ & Hd).
  unfold parseInt. cbn [trimStart]. rewrite Hsp.
  assert (Hsign : (let '(neg, s2) :=
              match String x v with
              | String "-" r => (true, r)
              | String "+" r => (false, r)
              | _ => (false, String x v)
              end in
            match read_digits s2 0 0 with
            | (_, O, _) => None
            | (v0, _, _) => Some (if neg then - v0 else v0)
            end)
          = match read_digits (String x v) 0 0 with
            | (_, O, _) => None
            | (v0, _, _) => Some v0
            end).
  { destruct x as [[] [] [] [] [] [] [] []]; try reflexivity;
      exfalso; (apply Hminus; reflexivity) || (apply Hplus; reflexivity). }
  rewrite Hsign. cbn [read_digits]. rewrite Hx.
  destruct (read_digits_grows v (0 * 10 + digit_val x) 1) as [Hn Hv]; [lia|].
  destruct (read_digits v (0 * 10 + digit_val x) 1) as [[val cnt] rest].
  cbn [fst snd] in *. destruct cnt; [lia|]. eauto.
Qed.

(** X17. Bedrooms found by the extractor are either the word "studio"
    or a run of digits, and [fetchAds] can always use them: the request
    built from the extracted criteria carries a bedrooms number, which is
    not negative. *)
Theorem extracted_bedrooms_are_sent (text : string) (b : BedroomsValue) :
  bedrooms (extractSearchCriteria text) = Some b ->
  (b = BedStr "studio"
   \/ exists x v, b = BedStr (String x v)
        /\ is_digit x = true /\ allChars is_digit v = true)
  /\ exists n,
       Js.obj_get (Ads.buildPayload (extractSearchCriteria text)) "bedrooms"
       = Some (Js.VNum n)
       /\ 0 <= n.
Proof.
  intros Hb.
  assert (Hshape : b = BedStr "studio"
            \/ exists x v, b = BedStr (String x v)
                 /\ is_digit x = true /\ allChars is_digit v = true).
  { cbn [extractSearchCriteria bedrooms] in Hb. unfold findBedrooms in Hb.
    destruct (exec bedroomPattern text) as [m|] eqn:E.
    - injection Hb as <-. right.
      apply exec_sound in E as (before & after & g & _ & Hm & Hg).
      destruct (capturing_sound bedroomPattern (Plus digit) _ _ _ eq_refl Hm)
        as (w & gi & go & -> & Hw).
      apply plus_class_chars in Hw as (x & v & -> & Hx & Hv).
      rewrite Hg. eauto.
    - destruct (includes _ "studio"); [|discriminate].
      injection Hb as <-. left. reflexivity. }
  split; [exact Hshape|].
  destruct Hshape as [->|(x & v & -> & Hx & Hv)].
  - exists 0. split; [|lia].
    apply (payload_bedrooms_studio _ "studio" Hb). reflexivity.
  - destruct (parseInt_digit x v Hx) as (n & Hn & Hpos).
    exists n. split; [|exact Hpos].
    rewrite (payload_bedrooms_parsed _ _ Hb), Hn; [reflexivity|].
    cbn [toLowerCase]. destruct (digit_not_sign x Hx) as (_ & _ & _ & _ & -> & _).
    intros [= -> _]. discriminate Hx.
Qed.

Lemma extracted_bedrooms_are_sent_witness :
  exists n,
    Js.obj_get (Ads.buildPayload (extractSearchCriteria "a 12 BHK flat in JVC"))
               "bedrooms" = Some (Js.VNum n)
    /\ 0 <= n.
Proof.
  apply (extracted_bedrooms_are_sent "a 12 BHK flat in JVC" (BedStr "12")).
  vm_compute. reflexivity.
Defined.

End Captures.

Section Prices.
Import JsString Regex.

(** [parseFloat] reads a number that is not negative from a text that
    begins with a digit. *)
Lemma parseFloat_digit (x : ascii) (v : string) :
  is_digit x = true ->
  exists q, parseFloat (String x v) = Some q /\ (0 <= q)%Q.
Proof.
  intros Hx. unfold parseFloat. cbn [read_digits]. rewrite Hx.
  destruct (digit_not_sign x Hx) as (_ & _ & _ & _ & _ & Hd).
  destruct (read_digits_grows v (0 * 10 + digit_val x) 1) as [Hn Hv]; [lia|].
  destruct (read_digits v (0 * 10 + digit_val x) 1) as [[ip cnt] rest].
  cbn [fst snd] in *. destruct cnt as [|cnt]; [lia|].
  assert (Hint : (0 <= ip # 1)%Q) by (unfold Qle; cbn; lia).
  destruct rest as [|y fr]; [eauto|].
  assert (Hfrac : forall den fv, 0 <= fv -> (0 <= (ip * Z.pos den + fv) # den)%Q)
    by (intros den fv Hfv; unfold Qle; cbn; nia).
  destruct (read_digits_grows fr 0 0) as [_ Hfv]; [lia|].
  destruct (read_digits fr 0 0) as [[fv n] rest'] eqn:Efr. cbn [fst] in Hfv.
  destruct y as [[] [] [] [] [] [] [] []]; eauto.
Qed.

Lemma scaleFactor_positive (matched : string) : 0 < scaleFactor matched.
Proof.
  unfold scaleFactor.
  destruct (_ || _); [lia|]. destruct (includes _ "k"); lia.
Qed.

Lemma Math_round_nonneg (x : Q) : (0 <= x)%Q -> 0 <= Math_round x.
Proof.
  intros Hx. unfold Math_round.
  change 0 with (Qfloor 0). apply Qfloor_resp_le.
  apply Qle_trans with x; [exact Hx|].
  rewrite <- (Qplus_0_r x) at 1. apply Qplus_le_r. discriminate.
Qed.

(** The literal a price pattern led by a groupless [lead] captures begins
    with a digit, so the price is read and is not negative. *)
Lemma findPrice_matched (lead : regex) (text : string) (m : MatchArray) :
  groupless lead = true ->
  exec (Cat lead (Cat (Star space) amountPattern)) text = Some m ->
  exists p, priceOf m = Some p /\ 0 <= p.
Proof.
  intros Hlead E.
  apply exec_sound in E as (before & after & g & _ & Hm & Hg).
  assert (Hcap : capturing (Cat lead (Cat (Star space) amountPattern))
                 = Some (Cat (Plus digit)
                           (Cat (Star (Cat (Lit ",") (Plus digit)))
                                (Opt (Cat (Lit ".") (Plus digit)))))).
  { cbn [capturing amountPattern]. reflexivity. }
  destruct (capturing_sound _ _ _ _ _ Hcap Hm) as (w & gi & go & -> & Hw).
  apply plus_class_first in Hw as (x & v & -> & Hx).
  unfold priceOf. rewrite Hg. cbn [removeCommas].
  destruct (digit_not_sign x Hx) as (_ & _ & _ & Hcomma & _).
  apply Ascii.eqb_neq in Hcomma. rewrite Hcomma.
  destruct (parseFloat_digit x (removeCommas v) Hx) as (q & -> & Hq).
  eexists. split; [reflexivity|].
  apply Math_round_nonneg. apply Qmult_le_0_compat; [exact Hq|].
  pose proof (scaleFactor_positive (m0 m)) as Hf.
  unfold Qle; cbn. lia.
Qed.

(** X18. A price bound is extracted exactly when its pattern matches
    the text (the literal the pattern captures always reads as a number),
    and an extracted bound is never negative. *)
Theorem extracted_prices (text : string) :
  (maxPrice (extractSearchCriteria text) = None <->
   exec maxPricePattern text = None)
  /\ (minPrice (extractSearchCriteria text) = None <->
      exec minPricePattern text = None)
  /\ (forall p, maxPrice (extractSearchCriteria text) = Some p -> 0 <= p)
  /\ (forall p, minPrice (extractSearchCriteria text) = Some p -> 0 <= p).
Proof.
  cbn [extractSearchCriteria maxPrice minPrice]. unfold findPrice.
  assert (Hmax : forall m, exec maxPricePattern text = Some m ->
                   exists p, priceOf m = Some p /\ 0 <= p)
    by (intros m; apply findPrice_matched; reflexivity).
  assert (Hmin : forall m, exec minPricePattern text = Some m ->
                   exists p, priceOf m = Some p /\ 0 <= p)
    by (intros m; apply findPrice_matched; reflexivity).
  destruct (exec maxPricePattern text) as [m|];
    [destruct (Hmax m eq_refl) as (p & -> & Hp)|];
    (destruct (exec minPricePattern text) as [m'|];
     [destruct (Hmin m' eq_refl) as (p' & -> & Hp')|]);
    repeat split; intros; try discriminate; try congruence.
Qed.

End Prices.

(** ** validate and the conversation *)

Section Validated.
Import Dialogue.

Ltac unfold_turn :=
  unfold turn, handler, afterShowing, showMoreBranch, narrowBranch, saveBranch,
    awaitingBranch, savedBranch, fallbackBranch, defaultBranch, reply, bind,
    readState, setAwaiting, setShowing, setLastCriteria, writeState, callFetchAds,
    callSave, callUpdateLogCount, querySavedPreferences, record, ret.

Ltac split_turn :=
  repeat match goal with
  | |- context [Ads.fetchAds ?p ?c] => destruct (Ads.fetchAds p c) as [? [?|]]
  | |- context [if ?b then _ else _] => destruct b eqn:?
  | |- context [match ?a with Store.SqlAbsent => _ | _ => _ end] => destruct a
  | |- context [match Store.selectLatestPreference ?d ?u with _ => _ end] =>
      destruct (Store.selectLatestPreference d u)
  end.

(** X19. Once the handler has answered a message with anything but the
    apology of a failed search, [validate] accepts whatever message comes
    next in the conversation: the turn left one of the two flags set. *)
Theorem validate_after_a_turn (env : Env) (msg : Message) (w : World)
        (next : string) :
  body (fst (handler env msg w)) <> SearchError ->
  SearchValidate.validate next (conv (turn env msg w)) = true.
Proof.
  assert (Hflags : body (fst (handler env msg w)) <> SearchError ->
            awaitingPropertyCriteria (conv (turn env msg w))
            || showingListingResults (conv (turn env msg w)) = true).
  { unfold_turn. destruct w as [[awaiting showing last] adapter evs].
    cbn [fst snd conv sql events awaitingPropertyCriteria showingListingResults
         lastSearchCriteria].
    split_turn;
      cbn [fst snd conv body awaitingPropertyCriteria showingListingResults
           lastSearchCriteria orb];
      intros H; try reflexivity; try (exfalso; apply H; reflexivity);
      try discriminate; try assumption; try (rewrite orb_true_r; reflexivity). }
  intros H. unfold SearchValidate.validate. rewrite (Hflags H). reflexivity.
Qed.

End Validated.

(** ** The link handlers *)

Section Links.
Import JsString Regex Js Details Analyse.

Lemma startsWith_append (l rest : string) : startsWith (l ++ rest) l = true.
Proof.
  induction l as [|x l IH]; cbn; [destruct rest; reflexivity|].
  rewrite Ascii.eqb_refl, IH. reflexivity.
Qed.

Lemma includes_piece (before l rest : string) :
  includes (before ++ l ++ rest) l = true.
Proof.
  induction before as [|x before IH]; cbn [String.append].
  - apply startsWith_includes, startsWith_append.
  - apply includes_tail, IH.
Qed.

Lemma allChars_append (p : ascii -> bool) (u v : string) :
  allChars p (u ++ v) = allChars p u && allChars p v.
Proof.
  induction u as [|x u IH]; cbn; [reflexivity|].
  rewrite IH, andb_assoc. reflexivity.
Qed.

Lemma space_folds (c : ascii) : is_space (lower_char c) = is_space c.
Proof. destruct c as [[] [] [] [] [] [] [] []]; reflexivity. Qed.

Lemma spaceless_matches (r : regex) (u : string) (g g' : option string) :
  Matches r u g g' -> Spaceless r -> allChars not_space u = true.
Proof.
  unfold not_space.
  induction 1; intros Hs; inversion Hs; subst; cbn;
    rewrite ?allChars_append, ?andb_true_r; auto.
  - rewrite <- space_folds.
    match goal with E : lower_char _ = lower_char _ |- _ => rewrite <- E end.
    rewrite space_folds.
    match goal with E : is_space c = false |- _ => rewrite E end. reflexivity.
  - match goal with Hp : forall x, _ -> is_space x = false |- _ =>
      rewrite Hp by assumption end. reflexivity.
  - rewrite IHMatches1, IHMatches2 by assumption. reflexivity.
  - rewrite IHMatches1, IHMatches2 by assumption. reflexivity.
Qed.

Lemma propertyLinkRegex_spaceless : Spaceless propertyLinkRegex.
Proof.
  unfold propertyLinkRegex, Opt, Plus. cbn [Word].
  repeat first [ apply S_Cat | apply S_Alt | apply S_Star | apply S_Eps
               | apply S_Lit; reflexivity
               | apply S_Class; intros x Hx; apply negb_true_iff in Hx; exact Hx ].
Qed.

Variable server : Server.

(** X20. The link handler sends at most 3 requests, all for the one
    link it found, which is a piece of the message without white space,
    and replies at most once. A message in which the pattern finds no
    link gets no request and no reply. When a link is found and each
    attempt fails, the reply is the trouble message and the handler
    returns [null]; the handler never throws unless building the analysis
    text does. *)
Theorem link_handler_bounded
        (render : bool -> JsValue -> string -> Outcome string) (text : string) :
  (requestCount (effects (handler server render text)) <= 3)%nat
  /\ (List.length (replies (handler server render text)) <= 1)%nat
  /\ (forall l, In l (linksIn (effects (handler server render text))) ->
        includes text l = true /\ allChars not_space l = true
        /\ exists m, exec propertyLinkRegex text = Some m /\ l = m0 m)
  /\ (exec propertyLinkRegex text = None ->
      handler server render text
      = {| effects := []; replies := []; result := Returned None |})
  /\ (exec propertyLinkRegex text <> None ->
      attemptFails (server 1) = true -> attemptFails (server 2) = true ->
      attemptFails (server 3) = true ->
      replies (handler server render text) = [Trouble]
      /\ result (handler server render text) = Returned None)
  /\ ((forall isRent d l, render isRent d l <> Thrown) ->
      result (handler server render text) <> Thrown).
Proof.
  unfold handler.
  destruct (exec propertyLinkRegex text) as [m|] eqn:E.
  2: { cbn. repeat split; try lia; try contradiction; try discriminate. }
  assert (Hlink : includes text (m0 m) = true
                  /\ allChars not_space (m0 m) = true).
  { apply exec_sound in E as (before & rest & g & -> & Hm & _).
    split; [apply includes_piece|].
    eapply spaceless_matches; [exact Hm|apply propertyLinkRegex_spaceless]. }
  destruct (fetchPropertyDetails_cases server (m0 m))
    as [(F1 & st & d & _ & ->) | [(F1 & F2 & st & d & _ & ->)
        | [(F1 & F2 & F3 & st & d & _ & ->) | (F1 & F2 & F3 & ->)]]];
    try (destruct (negb (truthy d));
         [|destruct (render _ d (m0 m)) as [analysis|] eqn:Hr]);
    cbn [effects replies result requestCount filter isRequest List.length
         linksIn flat_map app];
    (split; [lia|]); (split; [lia|]);
    (split; [intros l Hin; cbn in Hin;
             repeat (destruct Hin as [<-|Hin]; [split; [apply Hlink|split; [apply Hlink|eauto]]|]);
             contradiction|]);
    (split; [discriminate|]);
    (split; [intros _ H1 H2 H3; try congruence; split; reflexivity|]);
    intros Hrender; try discriminate.
  all: exfalso; eapply Hrender; eassumption.
Qed.

(** X21. The debug handler always announces the test link first, asks
    for that link only and at most 3 times, and, when each attempt fails,
    reports the failure and returns [null]. *)
Theorem debug_handler_bounded (describe : JsValue -> Outcome string) :
  (exists rest, replies (debugHandler server describe) = DebugIntro testUrl :: rest
                /\ (List.length rest <= 1)%nat)
  /\ (requestCount (effects (debugHandler server describe)) <= 3)%nat
  /\ (forall l, In l (linksIn (effects (debugHandler server describe))) ->
        l = testUrl)
  /\ (attemptFails (server 1) = true -> attemptFails (server 2) = true ->
      attemptFails (server 3) = true ->
      replies (debugHandler server describe) = [DebugIntro testUrl; DebugFailed]
      /\ result (debugHandler server describe) = Returned None).
Proof.
  unfold debugHandler.
  destruct (fetchPropertyDetails_cases server testUrl)
    as [(F1 & st & d & _ & ->) | [(F1 & F2 & st & d & _ & ->)
        | [(F1 & F2 & F3 & st & d & _ & ->) | (F1 & F2 & F3 & ->)]]];
    try (destruct (negb (truthy d)); [|destruct (describe d) as [summary|]]);
    cbn [effects replies result requestCount filter isRequest List.length
         linksIn flat_map app];
    (split; [eexists; split; [reflexivity|cbn; lia]|]);
    (split; [lia|]);
    (split; [intros l Hin; cbn in Hin;
             repeat (destruct Hin as [<-|Hin]; [reflexivity|]); contradiction|]);
    intros H1 H2 H3; try congruence; split; reflexivity.
Qed.

(** X22. An endpoint that the start-up probe finds unreachable (a
    rejected request or a status of 500 or more) and that goes on
    answering the same way gives no details: [fetchPropertyDetails]
    resolves to [null] after its three requests. *)
Theorem unreachable_gives_no_details (probe : AttemptResult) (link : string) :
  testPropertyLinkWebhook probe = false ->
  (forall attempt, server attempt = probe) ->
  fetchPropertyDetails server link
  = ([Request link; Wait 1000; Request link; Wait 2000; Request link], None).
Proof.
  intros Hprobe Hsame.
  assert (Hfail : forall k, attemptFails (server k) = true).
  { intros k. rewrite Hsame. destruct probe as [|status body]; [reflexivity|].
    cbn in *. apply Z.ltb_ge in Hprobe.
    unfold Ads.ok. replace (status <=? 299) with false by (symmetry; apply Z.leb_gt; lia).
    rewrite andb_false_r. reflexivity. }
  destruct (fetchPropertyDetails_cases server link)
    as [(F1 & _) | [(_ & F2 & _) | [(_ & _ & F3 & _) | (_ & _ & _ & ->)]]];
    [rewrite Hfail in F1; discriminate | rewrite Hfail in F2; discriminate
    | rewrite Hfail in F3; discriminate | reflexivity].
Qed.

End Links.

(** ** Instances *)

Section Instances.
Import Store Dialogue.

Lemma save_keeps_one_row_per_user_witness :
  "user-1" <> ""
  /\ exists db',
       saveSearchPreferences
         (SqlLive {| preferences := [newRow 5 "user-2" emptyCriteria];
                     search_logs := [] |})
         10 "search-1" "user-1" emptyCriteria = SqlLive db'
       /\ OneRowPerUser db'
       /\ List.length (selectByUser db' "user-1") = 1%nat.
Proof.
  split; [discriminate|].
  apply (save_keeps_one_row_per_user 10 "search-1" "user-1" emptyCriteria).
  - discriminate.
  - intros u. unfold selectByUser. cbn [preferences filter newRow user_id].
    destruct (String.eqb "user-2" u); cbn; lia.
Defined.

Lemma save_then_load_witness :
  "user-1" <> ""
  /\ exists db' r,
       saveSearchPreferences (SqlLive {| preferences := []; search_logs := [] |})
         10 "search-1" "user-1"
         {| area := Some "JVC"; propertyType := None;
            bedrooms := Some (BedNum 2); maxPrice := Some 900000;
            minPrice := Some 0 |} = SqlLive db'
       /\ selectLatestPreference db' "user-1" = Some r
       /\ user_id r = "user-1"
       /\ last_updated r = 10
       /\ ReadsBack {| area := Some "JVC"; propertyType := None;
                       bedrooms := Some (BedNum 2); maxPrice := Some 900000;
                       minPrice := Some 0 |} (criteriaFromDb r).
Proof.
  split; [discriminate|].
  apply (save_then_load 10 "search-1" "user-1"). discriminate.
Defined.

Lemma save_again_only_touches_witness :
  "user-1" <> ""
  /\ exists db1 db2,
       saveSearchPreferences (SqlLive {| preferences := []; search_logs := [] |})
         10 "search-1" "user-1"
         {| area := Some "JVC"; propertyType := None; bedrooms := None;
            maxPrice := None; minPrice := None |} = SqlLive db1
       /\ saveSearchPreferences (SqlLive db1) 20 "search-2" "user-1"
            {| area := Some "JVC"; propertyType := None; bedrooms := None;
               maxPrice := None; minPrice := None |} = SqlLive db2
       /\ preferences db2
          = map (fun r => if String.eqb (user_id r) "user-1"
                          then touched 20 r else r) (preferences db1).
Proof.
  split; [discriminate|].
  apply (save_again_only_touches 10 "search-1" "user-1"). discriminate.
Defined.


Lemma save_then_count_witness :
  "user-1" <> ""
  /\ exists db',
       saveSearchPreferences
         (SqlLive {| preferences := [];
                     search_logs := [newLog 5 "search-0" "user-1" emptyCriteria] |})
         10 "search-1" "user-1" emptyCriteria = SqlLive db'
       /\ updateLogCount db' 3 "user-1"
          = {| preferences := preferences db';
               search_logs :=
                 [ newLog 5 "search-0" "user-1" emptyCriteria;
                   {| search_id := "search-1"; log_user_id := "user-1";
                      timestamp := 10; criteria_json := emptyCriteria;
                      listings_returned := 3 |} ] |}.
Proof.
  split; [discriminate|].
  apply (save_then_count 10 "search-1" "user-1" emptyCriteria).
  - discriminate.
  - constructor; [intros _; cbn; lia|constructor].
  - constructor; [discriminate|constructor].
Defined.

Lemma show_more_changes_nothing_witness :
  conv (turn Scenario.offline (Scenario.say "show more") Scenario.browsing)
  = conv Scenario.browsing
  /\ sql (turn Scenario.offline (Scenario.say "show more") Scenario.browsing)
     = sql Scenario.browsing.
Proof.
  destruct (show_more_changes_nothing Scenario.offline (Scenario.say "show more")
              Scenario.browsing) as (Hconv & Hsql & _);
    [reflexivity|reflexivity|].
  split; assumption.
Defined.

Lemma showing_cleared_only_by_narrow_witness :
  Regex.test narrowPattern (JsString.trim (msg_text (Scenario.say "something less pricey")))
  = true.
Proof.
  apply (showing_cleared_only_by_narrow Scenario.online
           (Scenario.say "something less pricey") Scenario.browsing);
    reflexivity.
Defined.

Lemma reachable_showing_has_criteria_witness :
  ShowingHasCriteria (conv Scenario.browsing).
Proof.
  apply reachable_showing_has_criteria.
  apply reach_turn, reach_start.
Defined.

Lemma awaiting_nothing_to_send_witness :
  conv (turn Scenario.offline (Scenario.say "hello")
          (turn Scenario.online (Scenario.say "hi") Scenario.idle))
  = {| awaitingPropertyCriteria := false; showingListingResults := true;
       lastSearchCriteria := Some emptyCriteria |}.
Proof.
  apply (awaiting_nothing_to_send Scenario.offline (Scenario.say "hello")
           (turn Scenario.online (Scenario.say "hi") Scenario.idle)).
  - reflexivity.
  - reflexivity.
  - vm_compute. auto.
Defined.

Lemma extracted_prices_witness :
  minPrice (extractSearchCriteria "villa, at least 0.4 k") = Some 400
  /\ 0 <= 400.
Proof.
  split; [vm_compute; reflexivity|].
  apply (extracted_prices "villa, at least 0.4 k"). vm_compute. reflexivity.
Defined.

Lemma validate_after_a_turn_witness :
  SearchValidate.validate "what is the weather like"
    (conv (turn Scenario.online (Scenario.say "hi") Scenario.idle)) = true.
Proof.
  apply (validate_after_a_turn Scenario.online (Scenario.say "hi") Scenario.idle).
  vm_compute. discriminate.
Defined.

Lemma link_handler_bounded_witness :
  Analyse.replies
    (Analyse.handler (fun _ => Details.Status 503 None)
       (fun _ _ _ => Returned "analysis")
       "look: https://www.propertyfinder.ae/en/plp/rent/x.html thanks")
  = [Analyse.Trouble].
Proof.
  apply (link_handler_bounded (fun _ => Details.Status 503 None)
           (fun _ _ _ => Returned "analysis")
           "look: https://www.propertyfinder.ae/en/plp/rent/x.html thanks");
    try reflexivity.
  vm_compute. discriminate.
Defined.

Lemma debug_handler_bounded_witness :
  Analyse.replies
    (Analyse.debugHandler (fun _ => Details.TransportFailure)
       (fun _ => Returned "summary"))
  = [Analyse.DebugIntro Analyse.testUrl; Analyse.DebugFailed].
Proof.
  apply (debug_handler_bounded (fun _ => Details.TransportFailure)
           (fun _ => Returned "summary")); reflexivity.
Defined.

Lemma unreachable_gives_no_details_witness :
  Details.fetchPropertyDetails (fun _ => Details.Status 502 None) "l"
  = ([Details.Request "l"; Details.Wait 1000; Details.Request "l";
      Details.Wait 2000; Details.Request "l"], None).
Proof.
  apply (unreachable_gives_no_details (fun _ => Details.Status 502 None)
           (Details.Status 502 None) "l"); reflexivity.
Defined.

End Instances.
